(** * GPU launch configuration (tensorflow/core/util/gpu_launch_config.h)

    A shallow embedding of the launch-configuration calculators
    [DivUp], [GetGpuLaunchConfig] (heuristic and occupancy-aware),
    [GetGpuLaunchConfigFixedBlockSize], [GetGpu2DLaunchConfig] (heuristic and
    occupancy-aware) and [GetGpu3DLaunchConfig], followed by the properties
    of the specification that they satisfy or fail to satisfy. *)

From Stdlib Require Import ZArith List Lia Bool.
Import ListNotations.
Local Open Scope Z_scope.

(** ** The C++ [int]

    [int] is a 32-bit two's-complement integer.  Values are integers of [Z]
    that lie in [[min_int, max_int]]; the result of [+], [-] and [*] is
    reduced back into that interval (the wrap-around of the machine
    instruction; the language itself leaves signed overflow undefined), and
    a conversion to [unsigned int] reduces modulo 2^32.  Properties that
    depend on the wrapped value say so; the others are stated under
    [DivUp_fits] or [in_range] hypotheses that exclude overflow. *)
Module Int.

Definition min_int : Z := -2147483648.
Definition max_int : Z := 2147483647.
Definition half_modulus : Z := 2147483648.
Definition modulus : Z := 4294967296.

Definition in_range (a : Z) : Prop := min_int <= a <= max_int.

Definition wrap (a : Z) : Z := (a + half_modulus) mod modulus - half_modulus.

Definition add (a b : Z) : Z := wrap (a + b).
Definition sub (a b : Z) : Z := wrap (a - b).
Definition mul (a b : Z) : Z := wrap (a * b).

(** [static_cast<unsigned int>(a)] *)
Definition to_unsigned (a : Z) : Z := a mod modulus.

End Int.

(** [std::min({a, b, c})] *)
Definition min3 (a b c : Z) : Z := Z.min a (Z.min b c).

(** ** Effects

    The functions call into the device object and the driver, may abort on a
    failed [CHECK], and divide.  A computation yields the trace of the
    collaborator calls and integer divisions it performed, and how it
    ended. *)

Inductive call : Type :=
| getNumMultiProcessors        (* d.getNumCudaMultiProcessors / d.getNumHipMultiProcessors *)
| maxThreadsPerMultiProcessor  (* d.maxCudaThreadsPerMultiProcessor / d.maxHip... *)
| maxThreadsPerBlock           (* d.maxCudaThreadsPerBlock / d.maxHipThreadsPerBlock *)
| GetDevice                    (* cudaGetDevice / hipGetDevice *)
| GetDeviceProperties          (* cudaGetDeviceProperties / hipGetDeviceProperties *)
| OccupancyMaxPotentialBlockSize
| OccupancyMaxActiveBlocksPerMultiprocessor.

Inductive event : Type :=
| Call (c : call)
| Divide (dividend divisor : Z).

Inductive outcome (A : Type) : Type :=
| Ret (a : A)   (* the function returns a *)
| Fatal         (* a CHECK failed: the process aborts *)
| Trap.         (* integer division by zero, or min_int / -1 *)
Arguments Ret {A} a.
Arguments Fatal {A}.
Arguments Trap {A}.

Definition M (A : Type) : Type := (list event * outcome A)%type.

Definition ret {A} (a : A) : M A := ([], Ret a).

Definition bind {A B} (m : M A) (f : A -> M B) : M B :=
  match m with
  | (t, Ret a) => let (t', o) := f a in (t ++ t', o)
  | (t, Fatal) => (t, Fatal)
  | (t, Trap) => (t, Trap)
  end.

Declare Scope launch_scope.
Delimit Scope launch_scope with launch.
Notation "x <- m ;; k" := (bind m (fun x => k))
  (at level 61, m at next level, right associativity) : launch_scope.
Notation "' p <- m ;; k" := (bind m (fun x => match x with p => k end))
  (at level 61, p pattern, m at next level, right associativity) : launch_scope.
Notation "m ;; k" := (bind m (fun _ => k))
  (at level 61, right associativity) : launch_scope.
Local Open Scope launch_scope.

(** [a / b] on [int]: truncation toward zero. *)
Definition div (a b : Z) : M Z :=
  if (b =? 0) || ((a =? Int.min_int) && (b =? -1))
  then ([Divide a b], Trap)
  else ([Divide a b], Ret (Z.quot a b)).

(** [CHECK_GT(a, b)] *)
Definition CHECK_GT (a b : Z) : M unit :=
  if b <? a then ret tt else ([], Fatal).

(** ** Collaborators *)

(** The numbers [const Eigen::GpuDevice& d] reports. *)
Record GpuDevice : Type := {
  NumMultiProcessors : Z;
  ThreadsPerMultiProcessor : Z;
  ThreadsPerBlock : Z
}.

(** The fields of [cudaDeviceProp] / [hipDeviceProp_t] that are read. *)
Record DeviceProp : Type := {
  maxThreadsDim : Z * Z * Z;
  maxGridSize : Z * Z * Z
}.

(** [cudaError_t] *)
Inductive Error_t : Type := Success | Failure.

Definition Error_eqb (a b : Error_t) : bool :=
  match a, b with
  | Success, Success | Failure, Failure => true
  | _, _ => false
  end.

(** [CHECK_EQ(err, cudaSuccess)] *)
Definition CHECK_EQ (a b : Error_t) : M unit :=
  if Error_eqb a b then ret tt else ([], Fatal).

(** The driver, for the current device: the properties it reports and its
    two occupancy queries.  [PotentialBlockSize func smem limit] is what
    [cudaOccupancyMaxPotentialBlockSize] stores in [(block_count,
    thread_per_block)], [ActiveBlocks func block_size smem] what
    [cudaOccupancyMaxActiveBlocksPerMultiprocessor] stores in
    [block_count]. *)
Record Driver (DeviceFunc : Type) : Type := {
  Properties : DeviceProp;
  PotentialBlockSize : DeviceFunc -> Z -> Z -> Error_t * (Z * Z);
  ActiveBlocks : DeviceFunc -> Z -> Z -> Error_t * Z
}.
Arguments Properties {DeviceFunc} _.
Arguments PotentialBlockSize {DeviceFunc} _ _ _ _.
Arguments ActiveBlocks {DeviceFunc} _ _ _ _.

(** The two builds of the header: [#if GOOGLE_CUDA ... #elif
    TENSORFLOW_USE_ROCM]. *)
Inductive backend : Type := GOOGLE_CUDA | TENSORFLOW_USE_ROCM.

Definition query (c : call) (v : Z) : M Z := ([Call c], Ret v).

Definition d_getNumMultiProcessors (d : GpuDevice) : M Z :=
  query getNumMultiProcessors (NumMultiProcessors d).
Definition d_maxThreadsPerMultiProcessor (d : GpuDevice) : M Z :=
  query maxThreadsPerMultiProcessor (ThreadsPerMultiProcessor d).
Definition d_maxThreadsPerBlock (d : GpuDevice) : M Z :=
  query maxThreadsPerBlock (ThreadsPerBlock d).

Definition cudaGetDeviceProperties {F} (drv : Driver F) : M DeviceProp :=
  ([Call GetDevice; Call GetDeviceProperties], Ret (Properties drv)).

Definition cudaOccupancyMaxPotentialBlockSize {F} (drv : Driver F)
    (func : F) (dynamic_shared_memory_size block_size_limit : Z)
    : M (Error_t * (Z * Z)) :=
  ([Call OccupancyMaxPotentialBlockSize],
   Ret (PotentialBlockSize drv func dynamic_shared_memory_size block_size_limit)).

Definition cudaOccupancyMaxActiveBlocksPerMultiprocessor {F} (drv : Driver F)
    (func : F) (block_size dynamic_shared_memory_size : Z) : M (Error_t * Z) :=
  ([Call OccupancyMaxActiveBlocksPerMultiprocessor],
   Ret (ActiveBlocks drv func block_size dynamic_shared_memory_size)).

(** ** Data *)

(** [struct GpuLaunchConfig] *)
Module GpuLaunchConfig.
Record t : Type := make {
  virtual_thread_count : Z;
  thread_per_block : Z;
  block_count : Z
}.
End GpuLaunchConfig.

(** [dim3]: three [unsigned int]. *)
Record dim3 : Type := Dim3 { dim_x : Z; dim_y : Z; dim_z : Z }.

(** The constructor [dim3(a, b, c)] applied to [int] arguments. *)
Definition mk_dim3 (a b c : Z) : dim3 :=
  Dim3 (Int.to_unsigned a) (Int.to_unsigned b) (Int.to_unsigned c).

(** [struct Gpu2DLaunchConfig] *)
Module Gpu2DLaunchConfig.
Record t : Type := make {
  virtual_thread_count : dim3;
  thread_per_block : dim3;
  block_count : dim3
}.
(** The default member initialisers. *)
Definition default : t := make (mk_dim3 0 0 0) (mk_dim3 0 0 0) (mk_dim3 0 0 0).
End Gpu2DLaunchConfig.

(** [using Gpu3DLaunchConfig = Gpu2DLaunchConfig;] *)
Definition Gpu3DLaunchConfig : Type := Gpu2DLaunchConfig.t.

(** ** The functions *)

(** [inline int DivUp(int a, int b) { return (a + b - 1) / b; }] *)
Definition DivUp (a b : Z) : M Z := div (Int.sub (Int.add a b) 1) b.

(** The block that both 1D ROCm paths and the heuristic share:
    [physical_thread_count], [thread_per_block] and [block_count] from the
    device's numbers and a work count. *)
Definition device_block_count (work_element_count : Z) (d : GpuDevice) : M (Z * Z) :=
  sm <- d_getNumMultiProcessors d ;;
  mt <- d_maxThreadsPerMultiProcessor d ;;
  let physical_thread_count := Z.min (Int.mul sm mt) work_element_count in
  mb <- d_maxThreadsPerBlock d ;;
  let thread_per_block := Z.min 1024 mb in
  q <- DivUp physical_thread_count thread_per_block ;;
  sm' <- d_getNumMultiProcessors d ;;
  let block_count := Z.min q sm' in
  ret (block_count, thread_per_block).

Module Heuristic.

(** [GetGpuLaunchConfig(int work_element_count, const Eigen::GpuDevice& d)];
    the two builds differ in the names of the accessors only. *)
Definition GetGpuLaunchConfig (work_element_count : Z) (d : GpuDevice)
    : M GpuLaunchConfig.t :=
  CHECK_GT work_element_count 0 ;;
  let virtual_thread_count := work_element_count in
  ' (block_count, thread_per_block) <- device_block_count virtual_thread_count d ;;
  ret (GpuLaunchConfig.make virtual_thread_count thread_per_block block_count).

(** [GetGpu2DLaunchConfig(int xdim, int ydim, const Eigen::GpuDevice& d)] *)
Definition GetGpu2DLaunchConfig (xdim ydim : Z) (d : GpuDevice)
    : M Gpu2DLaunchConfig.t :=
  let config := Gpu2DLaunchConfig.default in
  if (xdim <=? 0) || (ydim <=? 0) then ret config else
  let kThreadsPerBlock := 256 in
  let block_cols := Z.min xdim kThreadsPerBlock in
  q <- div kThreadsPerBlock block_cols ;;
  let block_rows := Z.max q 1 in
  sm <- d_getNumMultiProcessors d ;;
  mt <- d_maxThreadsPerMultiProcessor d ;;
  let physical_thread_count := Int.mul sm mt in
  qb <- div physical_thread_count kThreadsPerBlock ;;
  let max_blocks := Z.max qb 1 in
  qx <- DivUp xdim block_cols ;;
  let grid_x := Z.min qx max_blocks in
  qg <- div max_blocks grid_x ;;
  qy <- div ydim block_rows ;;
  ret (Gpu2DLaunchConfig.make
         (mk_dim3 xdim ydim 1)
         (mk_dim3 block_cols block_rows 1)
         (mk_dim3 grid_x (Z.min qg (Z.max qy 1)) 1)).

End Heuristic.

(** Lines 336-341 of [GetGpu3DLaunchConfig]: [threadsx], [threadsy],
    [threadsz]. *)
Definition threads_per_axis (xdim ydim zdim thread_per_block : Z)
    (xthreadlimit ythreadlimit zthreadlimit : Z) : M (Z * Z * Z) :=
  let threadsx := min3 xdim thread_per_block xthreadlimit in
  q <- div thread_per_block threadsx ;;
  let threadsy := min3 ydim (Z.max q 1) ythreadlimit in
  q' <- div thread_per_block (Int.mul threadsx threadsy) ;;
  let threadsz := min3 zdim (Z.max q' 1) zthreadlimit in
  ret (threadsx, threadsy, threadsz).

(** Lines 343-347 of [GetGpu3DLaunchConfig]: [blocksx], [blocksy],
    [blocksz]. *)
Definition blocks_per_axis (xdim ydim zdim block_count : Z)
    (threadsx threadsy threadsz : Z)
    (xgridlimit ygridlimit zgridlimit : Z) : M (Z * Z * Z) :=
  qx <- DivUp xdim threadsx ;;
  let blocksx := min3 block_count qx xgridlimit in
  qb <- DivUp block_count blocksx ;;
  qy <- DivUp ydim threadsy ;;
  let blocksy := min3 qb qy ygridlimit in
  qb' <- DivUp block_count (Int.mul blocksx blocksy) ;;
  qz <- DivUp zdim threadsz ;;
  let blocksz := min3 qb' qz zgridlimit in
  ret (blocksx, blocksy, blocksz).

Module Occupancy.
Section WithKernel.
Context {DeviceFunc : Type}.

(** The [#if] block of the occupancy-aware [GetGpuLaunchConfig] and of
    [GetGpu3DLaunchConfig] that sets [block_count] and [thread_per_block]:
    the driver's occupancy query on CUDA; on ROCm, where the query is
    commented out, the device's numbers ([work] is the work count that
    bounds [physical_thread_count] in the 1D function, absent in 3D). *)
Definition occupancy_1d (b : backend) (work_element_count : Z) (d : GpuDevice)
    (drv : Driver DeviceFunc) (func : DeviceFunc)
    (dynamic_shared_memory_size block_size_limit : Z) : M (Z * Z) :=
  match b with
  | GOOGLE_CUDA =>
      ' (err, r) <- cudaOccupancyMaxPotentialBlockSize drv func
                      dynamic_shared_memory_size block_size_limit ;;
      CHECK_EQ err Success ;;
      ret r
  | TENSORFLOW_USE_ROCM => device_block_count work_element_count d
  end.

Definition occupancy_3d (b : backend) (d : GpuDevice)
    (drv : Driver DeviceFunc) (func : DeviceFunc)
    (dynamic_shared_memory_size block_size_limit : Z) : M (Z * Z) :=
  match b with
  | GOOGLE_CUDA =>
      ' (err, r) <- cudaOccupancyMaxPotentialBlockSize drv func
                      dynamic_shared_memory_size block_size_limit ;;
      CHECK_EQ err Success ;;
      ret r
  | TENSORFLOW_USE_ROCM =>
      sm <- d_getNumMultiProcessors d ;;
      mt <- d_maxThreadsPerMultiProcessor d ;;
      let physical_thread_count := Int.mul sm mt in
      mb <- d_maxThreadsPerBlock d ;;
      let thread_per_block := Z.min 1024 mb in
      q <- DivUp physical_thread_count thread_per_block ;;
      sm' <- d_getNumMultiProcessors d ;;
      ret (Z.min q sm', thread_per_block)
  end.

(** [GetGpuLaunchConfig(work_element_count, d, func,
    dynamic_shared_memory_size, block_size_limit)] *)
Definition GetGpuLaunchConfig (b : backend) (work_element_count : Z)
    (d : GpuDevice) (drv : Driver DeviceFunc) (func : DeviceFunc)
    (dynamic_shared_memory_size block_size_limit : Z) : M GpuLaunchConfig.t :=
  CHECK_GT work_element_count 0 ;;
  ' (block_count, thread_per_block) <-
      occupancy_1d b work_element_count d drv func
        dynamic_shared_memory_size block_size_limit ;;
  q <- DivUp work_element_count thread_per_block ;;
  let block_count := Z.min block_count q in
  ret (GpuLaunchConfig.make work_element_count thread_per_block block_count).

(** [GetGpuLaunchConfigFixedBlockSize(work_element_count, d, func,
    dynamic_shared_memory_size, fixed_block_size)] *)
Definition GetGpuLaunchConfigFixedBlockSize (b : backend)
    (work_element_count : Z) (d : GpuDevice) (drv : Driver DeviceFunc)
    (func : DeviceFunc) (dynamic_shared_memory_size fixed_block_size : Z)
    : M GpuLaunchConfig.t :=
  CHECK_GT work_element_count 0 ;;
  block_count <-
    match b with
    | GOOGLE_CUDA =>
        ' (err, block_count) <- cudaOccupancyMaxActiveBlocksPerMultiprocessor
                                  drv func fixed_block_size
                                  dynamic_shared_memory_size ;;
        CHECK_EQ err Success ;;
        sm <- d_getNumMultiProcessors d ;;
        q <- DivUp work_element_count fixed_block_size ;;
        ret (Z.min (Int.mul block_count sm) q)
    | TENSORFLOW_USE_ROCM =>
        ' (block_count, _) <- device_block_count work_element_count d ;;
        ret block_count
    end ;;
  ret (GpuLaunchConfig.make work_element_count fixed_block_size block_count).

(** [GetGpu3DLaunchConfig(xdim, ydim, zdim, d, func,
    dynamic_shared_memory_size, block_size_limit)] *)
Definition GetGpu3DLaunchConfig (b : backend) (xdim ydim zdim : Z)
    (d : GpuDevice) (drv : Driver DeviceFunc) (func : DeviceFunc)
    (dynamic_shared_memory_size block_size_limit : Z) : M Gpu3DLaunchConfig :=
  let config := Gpu2DLaunchConfig.default in
  if (xdim <=? 0) || (ydim <=? 0) || (zdim <=? 0) then ret config else
  deviceProp <- cudaGetDeviceProperties drv ;;
  let '(xthreadlimit, ythreadlimit, zthreadlimit) := maxThreadsDim deviceProp in
  let '(xgridlimit, ygridlimit, zgridlimit) := maxGridSize deviceProp in
  ' (block_count, thread_per_block) <-
      occupancy_3d b d drv func dynamic_shared_memory_size block_size_limit ;;
  ' (threadsx, threadsy, threadsz) <-
      threads_per_axis xdim ydim zdim thread_per_block
        xthreadlimit ythreadlimit zthreadlimit ;;
  ' (blocksx, blocksy, blocksz) <-
      blocks_per_axis xdim ydim zdim block_count threadsx threadsy threadsz
        xgridlimit ygridlimit zgridlimit ;;
  ret (Gpu2DLaunchConfig.make
         (mk_dim3 xdim ydim zdim)
         (mk_dim3 threadsx threadsy threadsz)
         (mk_dim3 blocksx blocksy blocksz)).

(** [GetGpu2DLaunchConfig(xdim, ydim, d, func, dynamic_shared_memory_size,
    block_size_limit)] *)
Definition GetGpu2DLaunchConfig (b : backend) (xdim ydim : Z)
    (d : GpuDevice) (drv : Driver DeviceFunc) (func : DeviceFunc)
    (dynamic_shared_memory_size block_size_limit : Z) : M Gpu2DLaunchConfig.t :=
  GetGpu3DLaunchConfig b xdim ydim 1 d drv func
    dynamic_shared_memory_size block_size_limit.

End WithKernel.
End Occupancy.

(** ** The specification's arithmetic *)

(** [ceil_div(a, b) = floor((a + b - 1) / b)] *)
Definition ceil_div (a b : Z) : Z := (a + b - 1) / b.

(** The addition inside [DivUp a b] stays below [max_int]. *)
Definition DivUp_fits (a b : Z) : Prop := a + b - 1 <= Int.max_int.

(** ** The specification's formulas *)

Module Spec.

(** Section 4.5: the greedy distribution of [threads_per_block]. *)
Definition threads_x (xdim tpb xtl : Z) : Z := min3 xdim tpb xtl.
Definition threads_y (ydim tpb tx ytl : Z) : Z :=
  min3 ydim (Z.max (tpb / tx) 1) ytl.
Definition threads_z (zdim tpb tx ty ztl : Z) : Z :=
  min3 zdim (Z.max (tpb / (tx * ty)) 1) ztl.

(** Section 4.5: the greedy distribution of [block_count]. *)
Definition blocks_x (xdim bc tx xgl : Z) : Z := min3 bc (ceil_div xdim tx) xgl.
Definition blocks_y (ydim bc bx ty ygl : Z) : Z :=
  min3 (ceil_div bc bx) (ceil_div ydim ty) ygl.
Definition blocks_z (zdim bc bx by_ tz zgl : Z) : Z :=
  min3 (ceil_div bc (bx * by_)) (ceil_div zdim tz) zgl.

(** Section 4.2: the 1D heuristic. *)
Definition physical_thread_count (n : Z) (d : GpuDevice) : Z :=
  Z.min n (NumMultiProcessors d * ThreadsPerMultiProcessor d).
Definition threads_per_block (d : GpuDevice) : Z := Z.min 1024 (ThreadsPerBlock d).
Definition block_count (n : Z) (d : GpuDevice) : Z :=
  Z.min (ceil_div (physical_thread_count n d) (threads_per_block d))
        (NumMultiProcessors d).

(** Section 4.4: the 2D heuristic. *)
Definition block_cols (xdim : Z) : Z := Z.min xdim 256.
Definition block_rows (xdim : Z) : Z := Z.max (256 / block_cols xdim) 1.
Definition max_blocks (d : GpuDevice) : Z :=
  Z.max (NumMultiProcessors d * ThreadsPerMultiProcessor d / 256) 1.
Definition grid_x (xdim : Z) (d : GpuDevice) : Z :=
  Z.min (ceil_div xdim (block_cols xdim)) (max_blocks d).
Definition grid_y (xdim ydim : Z) (d : GpuDevice) : Z :=
  Z.min (max_blocks d / grid_x xdim d) (Z.max (ydim / block_rows xdim) 1).

End Spec.

(** ** Predicates on computations *)

(** Every division of a trace has a strictly positive divisor. *)
Definition divisors_positive (t : list event) : Prop :=
  forall a b, In (Divide a b) t -> 0 < b.

(** [m] returns a value satisfying [P], and every division it performed on
    the way had a strictly positive divisor. *)
Definition succeeds {A} (m : M A) (P : A -> Prop) : Prop :=
  divisors_positive (fst m) /\ exists a, snd m = Ret a /\ P a.

(** [m] returns, and every division it performed had a strictly positive
    divisor. *)
Definition safe {A} (m : M A) : Prop := succeeds m (fun _ => True).

(** The all-zero configuration. *)
Definition all_zero : Gpu2DLaunchConfig.t :=
  Gpu2DLaunchConfig.make (Dim3 0 0 0) (Dim3 0 0 0) (Dim3 0 0 0).

(** The device properties and occupancy answer of the specification's
    example: thread limits (1024, 1024, 64), grid limits 2^31-1, and
    (block_count, threads_per_block) = (13, 1024). *)
Definition example_driver : Driver unit :=
  Build_Driver unit
    (Build_DeviceProp (1024, 1024, 64) (2147483647, 2147483647, 2147483647))
    (fun _ _ _ => (Success, (13, 1024)))
    (fun _ _ _ => (Success, 2)).

Definition example_device : GpuDevice := Build_GpuDevice 80 2048 1024.

(** The 1D heuristic's result as section 4.2 gives it, with the bounds
    on [block_count] that the test suite asserts. *)
Definition heuristic_1d_formula (n : Z) (d : GpuDevice)
    (cfg : GpuLaunchConfig.t) : Prop :=
  GpuLaunchConfig.virtual_thread_count cfg = n
  /\ GpuLaunchConfig.thread_per_block cfg = Z.min 1024 (ThreadsPerBlock d)
  /\ GpuLaunchConfig.block_count cfg
     = Z.min (ceil_div (Z.min n (NumMultiProcessors d * ThreadsPerMultiProcessor d))
                (GpuLaunchConfig.thread_per_block cfg))
             (NumMultiProcessors d)
  /\ 1 <= GpuLaunchConfig.block_count cfg <= NumMultiProcessors d.

(** [m] never performs the collaborator call [c]. *)
Definition avoids {A} (c : call) (m : M A) : Prop := ~ In (Call c) (fst m).

(** * Properties *)

(** ** Facts about [int] *)

Lemma wrap_in_range a : Int.in_range a -> Int.wrap a = a.
Proof.
  unfold Int.in_range, Int.wrap, Int.min_int, Int.max_int, Int.half_modulus,
    Int.modulus.
  intros H. rewrite Z.mod_small by lia. lia.
Qed.

Lemma wrap_range a : Int.in_range (Int.wrap a).
Proof.
  unfold Int.in_range, Int.wrap, Int.min_int, Int.max_int, Int.half_modulus,
    Int.modulus.
  pose proof (Z.mod_pos_bound (a + 2147483648) 4294967296 eq_refl). lia.
Qed.

Lemma wrap_add_l a b : Int.wrap (Int.wrap a + b) = Int.wrap (a + b).
Proof.
  unfold Int.wrap. f_equal.
  replace ((a + Int.half_modulus) mod Int.modulus - Int.half_modulus + b
           + Int.half_modulus)
    with ((a + Int.half_modulus) mod Int.modulus + b) by lia.
  rewrite Zplus_mod_idemp_l. f_equal. lia.
Qed.

Lemma sub_add_1 a b : Int.sub (Int.add a b) 1 = Int.wrap (a + b - 1).
Proof.
  unfold Int.sub, Int.add.
  replace (Int.wrap (a + b) - 1) with (Int.wrap (a + b) + (-1)) by lia.
  rewrite wrap_add_l. reflexivity.
Qed.

(** Past [max_int] a sum of two positive [int] wraps to a negative number. *)
Lemma wrap_overflow a :
  Int.max_int < a -> a <= Int.modulus + Int.max_int ->
  Int.wrap a = a - Int.modulus.
Proof.
  unfold Int.wrap, Int.min_int, Int.max_int, Int.half_modulus, Int.modulus.
  intros H1 H2.
  replace (a + 2147483648) with ((a - 2147483648) + 1 * 4294967296) by lia.
  rewrite Z.mod_add by lia. rewrite Z.mod_small by lia. lia.
Qed.

Lemma mul_in_range a b : Int.in_range (a * b) -> Int.mul a b = a * b.
Proof. apply wrap_in_range. Qed.

Lemma to_unsigned_small a : 0 <= a <= Int.max_int -> Int.to_unsigned a = a.
Proof.
  unfold Int.to_unsigned, Int.max_int, Int.modulus. intros H.
  apply Z.mod_small. lia.
Qed.

Lemma mk_dim3_small a b c :
  0 <= a <= Int.max_int -> 0 <= b <= Int.max_int -> 0 <= c <= Int.max_int ->
  mk_dim3 a b c = Dim3 a b c.
Proof.
  intros Ha Hb Hc. unfold mk_dim3. now rewrite !to_unsigned_small.
Qed.

(** ** Facts about [ceil_div] *)

Lemma ceil_div_pos a b : 1 <= a -> 1 <= b -> 1 <= ceil_div a b.
Proof.
  intros Ha Hb. unfold ceil_div.
  apply Z.div_le_lower_bound; lia.
Qed.

Lemma ceil_div_covers a b : 1 <= b -> a <= ceil_div a b * b.
Proof.
  intros Hb. unfold ceil_div.
  pose proof (Z.mod_pos_bound (a + b - 1) b ltac:(lia)).
  pose proof (Z.div_mod (a + b - 1) b ltac:(lia)). nia.
Qed.

Lemma ceil_div_mul_le a b : 1 <= b -> b * ceil_div a b <= a + b - 1.
Proof. intros Hb. unfold ceil_div. apply Z.mul_div_le. lia. Qed.

Lemma ceil_div_le a b : 1 <= a -> 1 <= b -> ceil_div a b <= a.
Proof.
  intros Ha Hb. unfold ceil_div.
  apply Z.div_le_upper_bound; nia.
Qed.

Lemma ceil_div_mono a a' b : 1 <= b -> a <= a' -> ceil_div a b <= ceil_div a' b.
Proof. intros Hb H. unfold ceil_div. apply Z.div_le_mono; lia. Qed.

Lemma ceil_div_antimono a b b' :
  1 <= a -> 1 <= b -> b <= b' -> ceil_div a b' <= ceil_div a b.
Proof.
  intros Ha Hb H.
  pose proof (ceil_div_covers a b Hb) as Hc.
  pose proof (ceil_div_pos a b Ha Hb) as Hp.
  enough (ceil_div a b' < ceil_div a b + 1) by lia.
  unfold ceil_div at 1. apply Z.div_lt_upper_bound; [lia|]. nia.
Qed.

(** ** Reasoning about computations *)

Lemma divisors_positive_app t t' :
  divisors_positive t -> divisors_positive t' -> divisors_positive (t ++ t').
Proof.
  intros H H' a b Hin. apply in_app_or in Hin as [Hin | Hin]; eauto.
Qed.

Lemma succeeds_ret {A} (a : A) (P : A -> Prop) : P a -> succeeds (ret a) P.
Proof.
  intros H. split; [intros ? ? []|]. exists a. now split.
Qed.

Lemma succeeds_bind {A B} (m : M A) (f : A -> M B) P Q :
  succeeds m P -> (forall a, P a -> succeeds (f a) Q) -> succeeds (bind m f) Q.
Proof.
  destruct m as [t o]. intros [Ht (a & Ho & Ha)] Hf. simpl in Ht, Ho. subst o.
  destruct (Hf a Ha) as [Ht' (b & Ho' & Hb)].
  unfold bind. destruct (f a) as [t' o']. simpl in *. split.
  - now apply divisors_positive_app.
  - now exists b.
Qed.

Lemma succeeds_weaken {A} (m : M A) (P Q : A -> Prop) :
  succeeds m P -> (forall a, P a -> Q a) -> succeeds m Q.
Proof.
  intros [Ht (a & Ho & Ha)] H. split; [assumption|]. exists a. auto.
Qed.

Lemma succeeds_returns {A} (m : M A) (a : A) :
  succeeds m (fun r => r = a) -> snd m = Ret a.
Proof. intros [_ (r & Ho & ->)]. assumption. Qed.

Lemma succeeds_query c v : succeeds (query c v) (fun r => r = v).
Proof.
  split; [|now exists v]. intros a b [Hin | []]. discriminate.
Qed.

Lemma succeeds_CHECK_GT a b : b < a -> succeeds (CHECK_GT a b) (fun _ => True).
Proof.
  intros H. unfold CHECK_GT. apply Z.ltb_lt in H. rewrite H.
  now apply succeeds_ret.
Qed.

Lemma succeeds_CHECK_EQ e : succeeds (CHECK_EQ e e) (fun _ => True).
Proof.
  unfold CHECK_EQ. replace (Error_eqb e e) with true by now destruct e.
  now apply succeeds_ret.
Qed.

(** One step of a computation: the first action by [tac], the rest left
    as the goal. *)
Ltac step tac := eapply succeeds_bind; [tac|].

(** A call of a device accessor, and a passing [CHECK]. *)
Ltac step_query := step ltac:(apply succeeds_query); intros ? ->.
Ltac step_check :=
  step ltac:(first [apply succeeds_CHECK_GT; lia | apply succeeds_CHECK_EQ]);
  intros _ _.

(** The extents are positive: the early return is not taken. *)
Ltac not_degenerate :=
  repeat match goal with
    | |- context [?a <=? 0] =>
        replace (a <=? 0) with false by (symmetry; apply Z.leb_gt; lia)
    end;
  cbn [orb].

Lemma div_positive a b :
  0 < b -> div a b = ([Divide a b], Ret (Z.quot a b)).
Proof.
  intros Hb. unfold div.
  replace (b =? 0) with false by (symmetry; apply Z.eqb_neq; lia).
  replace (b =? -1) with false by (symmetry; apply Z.eqb_neq; lia).
  now rewrite andb_false_r.
Qed.

Lemma succeeds_div_quot a b :
  0 < b -> succeeds (div a b) (fun q => q = Z.quot a b).
Proof.
  intros Hb. rewrite div_positive by assumption. split.
  - intros x y [Hin | []]. injection Hin as _ <-. assumption.
  - now eexists.
Qed.

Lemma succeeds_div a b :
  0 <= a -> 0 < b -> succeeds (div a b) (fun q => q = a / b).
Proof.
  intros Ha Hb. eapply succeeds_weaken; [now apply succeeds_div_quot|].
  intros q ->. now apply Z.quot_div_nonneg.
Qed.

(** When its addition fits, [DivUp] is the specification's [ceil_div]. *)
Lemma succeeds_DivUp a b :
  0 <= a -> 1 <= b -> DivUp_fits a b ->
  succeeds (DivUp a b) (fun q => q = ceil_div a b).
Proof.
  unfold DivUp_fits, DivUp, ceil_div. intros Ha Hb Hfit.
  rewrite sub_add_1, wrap_in_range
    by (unfold Int.in_range, Int.min_int, Int.max_int in *; lia).
  apply succeeds_div; lia.
Qed.

(** Whether or not its addition fits, [DivUp] on positive [int] never
    exceeds [ceil_div]: a sum that wraps is negative. *)
Lemma DivUp_le_ceil_div a b :
  1 <= a -> a <= Int.max_int -> 1 <= b -> b <= Int.max_int ->
  exists q, DivUp a b = ([Divide (Int.wrap (a + b - 1)) b], Ret q)
            /\ q <= ceil_div a b.
Proof.
  intros Ha Ha' Hb Hb'. unfold DivUp. rewrite sub_add_1, div_positive by lia.
  eexists. split; [reflexivity|].
  pose proof (ceil_div_pos a b Ha Hb) as Hpos.
  destruct (Z_le_gt_dec (a + b - 1) Int.max_int) as [Hfit | Hover].
  - rewrite wrap_in_range
      by (unfold Int.in_range, Int.min_int, Int.max_int in *; lia).
    rewrite Z.quot_div_nonneg by lia. reflexivity.
  - rewrite wrap_overflow
      by (unfold Int.modulus, Int.min_int, Int.max_int in *; lia).
    assert (Hneg : a + b - 1 - Int.modulus <= 0)
      by (unfold Int.modulus, Int.max_int in *; lia).
    pose proof (Z.quot_opp_l (- (a + b - 1 - Int.modulus)) b ltac:(lia)) as Hq.
    rewrite Z.opp_involutive in Hq. rewrite Hq.
    pose proof (Z.quot_pos (- (a + b - 1 - Int.modulus)) b ltac:(lia) ltac:(lia)).
    lia.
Qed.

(** ** The 3D distribution *)

Section Distribution.
Variables xdim ydim zdim thread_per_block xtl ytl ztl : Z.
Hypothesis xdim_pos : 1 <= xdim.
Hypothesis ydim_pos : 1 <= ydim.
Hypothesis zdim_pos : 1 <= zdim.
Hypothesis tpb_pos : 1 <= thread_per_block.
Hypothesis xtl_pos : 1 <= xtl.
Hypothesis ytl_pos : 1 <= ytl.
Hypothesis ztl_pos : 1 <= ztl.

Local Abbreviation tx := (Spec.threads_x xdim thread_per_block xtl).
Local Abbreviation ty := (Spec.threads_y ydim thread_per_block tx ytl).
Local Abbreviation tz := (Spec.threads_z zdim thread_per_block tx ty ztl).

Lemma threads_x_bounds : 1 <= tx <= xdim /\ tx <= thread_per_block /\ tx <= xtl.
Proof using All. unfold Spec.threads_x, min3. lia. Qed.

Lemma threads_y_bounds :
  1 <= ty <= ydim /\ ty <= ytl /\ tx * ty <= thread_per_block.
Proof using All.
  pose proof threads_x_bounds as (Hx & Hxt & _).
  pose proof (Z.mul_div_le thread_per_block tx ltac:(lia)) as Hq.
  assert (1 <= thread_per_block / tx) by (apply Z.div_le_lower_bound; lia).
  unfold Spec.threads_y, min3. repeat split; try lia.
  nia.
Qed.

Lemma threads_z_bounds :
  1 <= tz <= zdim /\ tz <= ztl /\ tx * ty * tz <= thread_per_block.
Proof using All.
  pose proof threads_x_bounds as (Hx & Hxt & _).
  pose proof threads_y_bounds as (Hy & _ & Hxy).
  assert (Hp : 1 <= tx * ty) by nia.
  pose proof (Z.mul_div_le thread_per_block (tx * ty) ltac:(lia)) as Hq.
  assert (1 <= thread_per_block / (tx * ty))
    by (apply Z.div_le_lower_bound; lia).
  unfold Spec.threads_z, min3. repeat split; try lia.
  nia.
Qed.

(** The thread distribution never wraps and never traps: the product
    [threadsx * threadsy] is bounded by [thread_per_block]. *)
Lemma threads_per_axis_succeeds :
  thread_per_block <= Int.max_int ->
  succeeds (threads_per_axis xdim ydim zdim thread_per_block xtl ytl ztl)
           (fun r => r = (tx, ty, tz)).
Proof using All.
  intros Hint.
  pose proof threads_x_bounds as (Hx & Hxt & _).
  pose proof threads_y_bounds as (Hy & _ & Hxy).
  unfold threads_per_axis. fold (Spec.threads_x xdim thread_per_block xtl).

  eapply succeeds_bind; [apply succeeds_div; lia|]. intros q ->.
  fold (Spec.threads_y ydim thread_per_block tx ytl).
  rewrite mul_in_range
    by (unfold Int.in_range, Int.min_int, Int.max_int in *; nia).
  eapply succeeds_bind; [apply succeeds_div; nia|]. intros q ->.
  now apply succeeds_ret.
Qed.

End Distribution.

Lemma succeeds_DivUp_any a b : 0 < b -> succeeds (DivUp a b) (fun _ => True).
Proof.
  intros Hb. unfold DivUp.
  eapply succeeds_weaken; [now apply succeeds_div_quot | trivial].
Qed.

Section Blocks.
Variables xdim ydim zdim block_count tx ty tz xgl ygl zgl : Z.
Hypothesis xdim_pos : 1 <= xdim.
Hypothesis ydim_pos : 1 <= ydim.
Hypothesis zdim_pos : 1 <= zdim.
Hypothesis tx_pos : 1 <= tx.
Hypothesis ty_pos : 1 <= ty.
Hypothesis tz_pos : 1 <= tz.
Hypothesis bc_pos : 1 <= block_count.
Hypothesis xgl_pos : 1 <= xgl.
Hypothesis ygl_pos : 1 <= ygl.
Hypothesis zgl_pos : 1 <= zgl.

Local Abbreviation bx := (Spec.blocks_x xdim block_count tx xgl).
Local Abbreviation by_ := (Spec.blocks_y ydim block_count bx ty ygl).
Local Abbreviation bz := (Spec.blocks_z zdim block_count bx by_ tz zgl).

Lemma blocks_x_bounds : 1 <= bx <= block_count /\ bx <= xgl.
Proof using All.
  pose proof (ceil_div_pos xdim tx xdim_pos tx_pos).
  unfold Spec.blocks_x, min3. lia.
Qed.

Lemma blocks_y_bounds :
  1 <= by_ /\ by_ <= ygl /\ bx * by_ <= block_count + bx - 1.
Proof using All.
  pose proof blocks_x_bounds as (Hx & _).
  pose proof (ceil_div_pos block_count bx bc_pos ltac:(lia)).
  pose proof (ceil_div_pos ydim ty ydim_pos ty_pos).
  pose proof (ceil_div_mul_le block_count bx ltac:(lia)).
  unfold Spec.blocks_y, min3. repeat split; try lia. nia.
Qed.

Lemma blocks_z_bounds : 1 <= bz /\ bz <= zgl.
Proof using All.
  pose proof blocks_x_bounds as (Hx & _).
  pose proof blocks_y_bounds as (Hy & _).
  pose proof (ceil_div_pos block_count (bx * by_) bc_pos ltac:(nia)).
  pose proof (ceil_div_pos zdim tz zdim_pos tz_pos).
  unfold Spec.blocks_z, min3. lia.
Qed.

(** With the additions that feed a divisor fitting, every divisor is
    positive and the distribution returns. *)
Lemma blocks_per_axis_safe :
  DivUp_fits xdim tx -> DivUp_fits block_count bx -> DivUp_fits ydim ty ->
  succeeds (blocks_per_axis xdim ydim zdim block_count tx ty tz xgl ygl zgl)
           (fun r => fst (fst r) = bx /\ snd (fst r) = by_).
Proof using All.
  intros Fx Fb Fy.
  pose proof blocks_x_bounds as (Hx & _).
  pose proof blocks_y_bounds as (Hy & _ & Hxy).
  unfold blocks_per_axis.
  eapply succeeds_bind; [apply succeeds_DivUp; (assumption || lia)|].
  intros q ->. fold (Spec.blocks_x xdim block_count tx xgl).
  eapply succeeds_bind; [apply succeeds_DivUp; (assumption || lia)|].
  intros q ->.
  eapply succeeds_bind; [apply succeeds_DivUp; (assumption || lia)|].
  intros q ->. fold (Spec.blocks_y ydim block_count bx ty ygl).
  rewrite mul_in_range
    by (unfold DivUp_fits, Int.in_range, Int.min_int, Int.max_int in *; nia).
  eapply succeeds_bind; [apply succeeds_DivUp_any; nia|]. intros q _.
  eapply succeeds_bind; [apply succeeds_DivUp_any; lia|]. intros q' _.
  now apply succeeds_ret.
Qed.

(** With all five additions fitting, the distribution is the
    specification's. *)
Lemma blocks_per_axis_succeeds :
  DivUp_fits xdim tx -> DivUp_fits block_count bx -> DivUp_fits ydim ty ->
  DivUp_fits block_count (bx * by_) -> DivUp_fits zdim tz ->
  succeeds (blocks_per_axis xdim ydim zdim block_count tx ty tz xgl ygl zgl)
           (fun r => r = (bx, by_, bz)).
Proof using All.
  intros Fx Fb Fy Fbb Fz.
  pose proof blocks_x_bounds as (Hx & _).
  pose proof blocks_y_bounds as (Hy & _ & Hxy).
  unfold blocks_per_axis.
  eapply succeeds_bind; [apply succeeds_DivUp; (assumption || lia)|].
  intros q ->. fold (Spec.blocks_x xdim block_count tx xgl).
  eapply succeeds_bind; [apply succeeds_DivUp; (assumption || lia)|].
  intros q ->.
  eapply succeeds_bind; [apply succeeds_DivUp; (assumption || lia)|].
  intros q ->. fold (Spec.blocks_y ydim block_count bx ty ygl).
  rewrite mul_in_range
    by (unfold DivUp_fits, Int.in_range, Int.min_int, Int.max_int in *; nia).
  eapply succeeds_bind; [apply succeeds_DivUp; (assumption || nia)|].
  intros q ->.
  eapply succeeds_bind; [apply succeeds_DivUp; (assumption || lia)|].
  intros q ->.
  now apply succeeds_ret.
Qed.

End Blocks.

Lemma succeeds_cudaGetDeviceProperties {F} (drv : Driver F) :
  succeeds (cudaGetDeviceProperties drv) (fun p => p = Properties drv).
Proof.
  split; [|now eexists]. intros a b [H | [H | []]]; discriminate.
Qed.

Lemma succeeds_cudaOccupancyMaxPotentialBlockSize {F} (drv : Driver F) f s l :
  succeeds (cudaOccupancyMaxPotentialBlockSize drv f s l)
           (fun r => r = PotentialBlockSize drv f s l).
Proof.
  split; [|now eexists]. intros a b [H | []]; discriminate.
Qed.

Lemma succeeds_cudaOccupancyMaxActiveBlocksPerMultiprocessor {F}
    (drv : Driver F) f bs s :
  succeeds (cudaOccupancyMaxActiveBlocksPerMultiprocessor drv f bs s)
           (fun r => r = ActiveBlocks drv f bs s).
Proof.
  split; [|now eexists]. intros a b [H | []]; discriminate.
Qed.

Section ThreeD.
Context {DeviceFunc : Type}.
Variables (xdim ydim zdim : Z) (d : GpuDevice) (drv : Driver DeviceFunc)
  (func : DeviceFunc) (smem limit : Z).
Variables block_count thread_per_block xtl ytl ztl xgl ygl zgl : Z.
Hypothesis xdim_pos : 1 <= xdim.
Hypothesis ydim_pos : 1 <= ydim.
Hypothesis zdim_pos : 1 <= zdim.
Hypothesis occupancy :
  PotentialBlockSize drv func smem limit = (Success, (block_count, thread_per_block)).
Hypothesis bc_pos : 1 <= block_count.
Hypothesis tpb_pos : 1 <= thread_per_block.
Hypothesis tpb_int : thread_per_block <= Int.max_int.
Hypothesis thread_limits : maxThreadsDim (Properties drv) = (xtl, ytl, ztl).
Hypothesis grid_limits : maxGridSize (Properties drv) = (xgl, ygl, zgl).
Hypothesis xtl_pos : 1 <= xtl.
Hypothesis ytl_pos : 1 <= ytl.
Hypothesis ztl_pos : 1 <= ztl.
Hypothesis xgl_pos : 1 <= xgl.
Hypothesis ygl_pos : 1 <= ygl.
Hypothesis zgl_pos : 1 <= zgl.

Local Abbreviation tx := (Spec.threads_x xdim thread_per_block xtl).
Local Abbreviation ty := (Spec.threads_y ydim thread_per_block tx ytl).
Local Abbreviation tz := (Spec.threads_z zdim thread_per_block tx ty ztl).
Local Abbreviation bx := (Spec.blocks_x xdim block_count tx xgl).
Local Abbreviation by_ := (Spec.blocks_y ydim block_count bx ty ygl).
Local Abbreviation bz := (Spec.blocks_z zdim block_count bx by_ tz zgl).

Lemma occupancy_3d_cuda_succeeds :
  succeeds (Occupancy.occupancy_3d GOOGLE_CUDA d drv func smem limit)
           (fun r => r = (block_count, thread_per_block)).
Proof using All.
  unfold Occupancy.occupancy_3d.
  eapply succeeds_bind; [apply succeeds_cudaOccupancyMaxPotentialBlockSize|].
  intros r ->. rewrite occupancy.
  step_check.
  now apply succeeds_ret.
Qed.

Lemma GetGpu3DLaunchConfig_cuda_safe :
  DivUp_fits xdim tx -> DivUp_fits block_count bx -> DivUp_fits ydim ty ->
  succeeds (Occupancy.GetGpu3DLaunchConfig GOOGLE_CUDA xdim ydim zdim d drv
              func smem limit)
           (fun c => Gpu2DLaunchConfig.thread_per_block c = Dim3 tx ty tz).
Proof using All.
  intros Fx Fb Fy.
  pose proof (threads_x_bounds xdim ydim zdim thread_per_block xtl ytl ztl
                xdim_pos ydim_pos zdim_pos tpb_pos xtl_pos ytl_pos ztl_pos)
    as (Hx & Hxt & _).
  pose proof (threads_y_bounds xdim ydim zdim thread_per_block xtl ytl ztl
                xdim_pos ydim_pos zdim_pos tpb_pos xtl_pos ytl_pos ztl_pos)
    as (Hy & _ & Hxy).
  pose proof (threads_z_bounds xdim ydim zdim thread_per_block xtl ytl ztl
                xdim_pos ydim_pos zdim_pos tpb_pos xtl_pos ytl_pos ztl_pos)
    as (Hz & _ & Hxyz).

  unfold Occupancy.GetGpu3DLaunchConfig.
  not_degenerate.
  eapply succeeds_bind; [apply succeeds_cudaGetDeviceProperties|].
  intros p ->. rewrite thread_limits, grid_limits.
  eapply succeeds_bind; [apply occupancy_3d_cuda_succeeds|]. intros r ->.
  eapply succeeds_bind;
    [apply threads_per_axis_succeeds; assumption|].
  intros r ->.
  eapply succeeds_bind;
    [apply blocks_per_axis_safe; (assumption || lia)|].
  intros [[bx' by'] bz'] _.
  apply succeeds_ret. cbn.
  apply mk_dim3_small; nia.
Qed.

Lemma GetGpu3DLaunchConfig_cuda_succeeds :
  DivUp_fits xdim tx -> DivUp_fits block_count bx -> DivUp_fits ydim ty ->
  DivUp_fits block_count (bx * by_) -> DivUp_fits zdim tz ->
  succeeds (Occupancy.GetGpu3DLaunchConfig GOOGLE_CUDA xdim ydim zdim d drv
              func smem limit)
           (fun c => c = Gpu2DLaunchConfig.make (Dim3 xdim ydim zdim)
                           (Dim3 tx ty tz) (Dim3 bx by_ bz)).
Proof using All.
  intros Fx Fb Fy Fbb Fz.
  pose proof (threads_x_bounds xdim ydim zdim thread_per_block xtl ytl ztl
                xdim_pos ydim_pos zdim_pos tpb_pos xtl_pos ytl_pos ztl_pos)
    as (Hx & _).
  pose proof (threads_y_bounds xdim ydim zdim thread_per_block xtl ytl ztl
                xdim_pos ydim_pos zdim_pos tpb_pos xtl_pos ytl_pos ztl_pos)
    as (Hy & _).
  pose proof (threads_z_bounds xdim ydim zdim thread_per_block xtl ytl ztl
                xdim_pos ydim_pos zdim_pos tpb_pos xtl_pos ytl_pos ztl_pos)
    as (Hz & _).

  pose proof (blocks_x_bounds xdim ydim zdim block_count tx ty tz xgl ygl zgl
                xdim_pos ydim_pos zdim_pos ltac:(lia) ltac:(lia) ltac:(lia)
                bc_pos xgl_pos ygl_pos zgl_pos) as (Hbx & _).
  pose proof (blocks_y_bounds xdim ydim zdim block_count tx ty tz xgl ygl zgl
                xdim_pos ydim_pos zdim_pos ltac:(lia) ltac:(lia) ltac:(lia)
                bc_pos xgl_pos ygl_pos zgl_pos) as (Hby & _ & Hbxy).
  pose proof (blocks_z_bounds xdim ydim zdim block_count tx ty tz xgl ygl zgl
                xdim_pos ydim_pos zdim_pos ltac:(lia) ltac:(lia) ltac:(lia)
                bc_pos xgl_pos ygl_pos zgl_pos) as (Hbz & _).

  unfold Occupancy.GetGpu3DLaunchConfig.
  not_degenerate.
  eapply succeeds_bind; [apply succeeds_cudaGetDeviceProperties|].
  intros p ->. rewrite thread_limits, grid_limits.
  eapply succeeds_bind; [apply occupancy_3d_cuda_succeeds|]. intros r ->.
  eapply succeeds_bind;
    [apply threads_per_axis_succeeds; assumption|].
  intros r ->.
  eapply succeeds_bind;
    [apply blocks_per_axis_succeeds; (assumption || lia)|].
  intros r ->.
  apply succeeds_ret.
  assert (Hbz' : bz <= block_count).
  { pose proof (ceil_div_le block_count (bx * by_) bc_pos ltac:(nia)).
    unfold Spec.blocks_z, min3. lia. }
  assert (Hby' : by_ <= block_count).
  { pose proof (ceil_div_le block_count bx bc_pos ltac:(lia)).
    unfold Spec.blocks_y, min3. lia. }
  unfold DivUp_fits in *.
  rewrite !mk_dim3_small by lia. reflexivity.
Qed.

End ThreeD.

Lemma bind_returns {A B} (m : M A) (f : A -> M B) (b : B) :
  snd (bind m f) = Ret b -> exists a, snd m = Ret a /\ snd (f a) = Ret b.
Proof.
  destruct m as [t [a | |]]; simpl; try discriminate.
  destruct (f a) as [t' o'] eqn:E. simpl. intros ->.
  exists a. rewrite E. now split.
Qed.

(** * The claims *)

(** ** Degenerate extents *)

(** C3. When an axis extent is zero or negative, the heuristic
    [GetGpu2DLaunchConfig], [GetGpu3DLaunchConfig] and the occupancy-aware
    [GetGpu2DLaunchConfig] return the all-zero configuration: the outcome is
    a return, not an abort or a trap, and the trace is empty, so neither the
    device nor the driver was consulted. *)
Theorem degenerate_extent_all_zero {F} (b : backend) (xdim ydim zdim : Z)
    (d : GpuDevice) (drv : Driver F) (func : F) (smem limit : Z) :
  (xdim <= 0 \/ ydim <= 0 ->
     Heuristic.GetGpu2DLaunchConfig xdim ydim d = ([], Ret all_zero))
  /\ (xdim <= 0 \/ ydim <= 0 \/ zdim <= 0 ->
     Occupancy.GetGpu3DLaunchConfig b xdim ydim zdim d drv func smem limit
     = ([], Ret all_zero))
  /\ (xdim <= 0 \/ ydim <= 0 ->
     Occupancy.GetGpu2DLaunchConfig b xdim ydim d drv func smem limit
     = ([], Ret all_zero)).
Proof.
  assert (H3 : forall z, xdim <= 0 \/ ydim <= 0 \/ z <= 0 ->
     Occupancy.GetGpu3DLaunchConfig b xdim ydim z d drv func smem limit
     = ([], Ret all_zero)).
  { intros z H. unfold Occupancy.GetGpu3DLaunchConfig.
    assert (E : (xdim <=? 0) || (ydim <=? 0) || (z <=? 0) = true).
    { rewrite !orb_true_iff, !Z.leb_le. tauto. }
    rewrite E. reflexivity. }
  split; [|split].
  - intros H. unfold Heuristic.GetGpu2DLaunchConfig.
    assert (E : (xdim <=? 0) || (ydim <=? 0) = true).
    { rewrite orb_true_iff, !Z.leb_le. tauto. }
    rewrite E. reflexivity.
  - apply H3.
  - intros H. unfold Occupancy.GetGpu2DLaunchConfig. apply H3. tauto.
Qed.

Lemma degenerate_extent_all_zero_witness :
  Heuristic.GetGpu2DLaunchConfig 0 7 (Build_GpuDevice 80 2048 1024)
  = ([], Ret all_zero)
  /\ Occupancy.GetGpu3DLaunchConfig GOOGLE_CUDA 5 (-3) 2
       (Build_GpuDevice 80 2048 1024)
       (Build_Driver unit (Build_DeviceProp (1024, 1024, 64) (65535, 65535, 65535))
          (fun _ _ _ => (Failure, (0, 0))) (fun _ _ _ => (Failure, 0)))
       tt 0 0
     = ([], Ret all_zero).
Proof.
  split.
  - apply (degenerate_extent_all_zero (F := unit) GOOGLE_CUDA 0 7 1
             (Build_GpuDevice 80 2048 1024)
             (Build_Driver unit (Build_DeviceProp (1, 1, 1) (1, 1, 1))
                (fun _ _ _ => (Success, (1, 1))) (fun _ _ _ => (Success, 1)))
             tt 0 0).
    left. lia.
  - apply degenerate_extent_all_zero. right. left. lia.
Defined.

(** ** The occupancy-aware 2D function *)

(** C8. The occupancy-aware [GetGpu2DLaunchConfig] is
    [GetGpu3DLaunchConfig] at [zdim = 1]: for all arguments the two yield
    the same trace and the same outcome. *)
Theorem GetGpu2DLaunchConfig_is_3D_depth_one {F} (b : backend) (xdim ydim : Z)
    (d : GpuDevice) (drv : Driver F) (func : F) (smem limit : Z) :
  Occupancy.GetGpu2DLaunchConfig b xdim ydim d drv func smem limit
  = Occupancy.GetGpu3DLaunchConfig b xdim ydim 1 d drv func smem limit.
Proof.
  unfold Occupancy.GetGpu2DLaunchConfig.
  destruct b; reflexivity.
Qed.

(** ** The 3D thread distribution *)

(** C9. For positive extents, [thread_per_block >= 1] and thread limits
    [>= 1], lines 336-341 of [GetGpu3DLaunchConfig] return thread counts
    whose product is at most [thread_per_block], each at least 1 and at most
    its axis extent; and whenever [GetGpu3DLaunchConfig] (either build)
    returns a configuration, these are its [thread_per_block]. *)
Theorem threads_within_budget (xdim ydim zdim tpb xtl ytl ztl : Z) :
  0 < xdim -> 0 < ydim -> 0 < zdim ->
  1 <= tpb -> tpb <= Int.max_int ->
  1 <= xtl -> 1 <= ytl -> 1 <= ztl ->
  exists tx ty tz,
    snd (threads_per_axis xdim ydim zdim tpb xtl ytl ztl) = Ret (tx, ty, tz)
    /\ tx * ty * tz <= tpb
    /\ 1 <= tx <= xdim /\ 1 <= ty <= ydim /\ 1 <= tz <= zdim
    /\ forall F (b : backend) (d : GpuDevice) (drv : Driver F) (func : F)
         (smem limit bc : Z) grid cfg,
         Properties drv = Build_DeviceProp (xtl, ytl, ztl) grid ->
         snd (Occupancy.occupancy_3d b d drv func smem limit) = Ret (bc, tpb) ->
         snd (Occupancy.GetGpu3DLaunchConfig b xdim ydim zdim d drv func
                smem limit) = Ret cfg ->
         Gpu2DLaunchConfig.thread_per_block cfg = Dim3 tx ty tz.
Proof.
  intros Hx Hy Hz Ht Hti Hxl Hyl Hzl.
  pose proof (threads_x_bounds xdim ydim zdim tpb xtl ytl ztl
                ltac:(lia) ltac:(lia) ltac:(lia) Ht Hxl Hyl Hzl)
    as (Bx & Bxt & _).
  pose proof (threads_y_bounds xdim ydim zdim tpb xtl ytl ztl
                ltac:(lia) ltac:(lia) ltac:(lia) Ht Hxl Hyl Hzl)
    as (By & _ & Bxy).
  pose proof (threads_z_bounds xdim ydim zdim tpb xtl ytl ztl
                ltac:(lia) ltac:(lia) ltac:(lia) Ht Hxl Hyl Hzl)
    as (Bz & _ & Bxyz).
  pose proof (succeeds_returns _ _
                (threads_per_axis_succeeds xdim ydim zdim tpb xtl ytl ztl
                   ltac:(lia) ltac:(lia) ltac:(lia) Ht Hxl Hyl Hzl Hti))
    as Hret.
  do 3 eexists. split; [exact Hret|]. repeat split; try lia.
  intros F b d drv func smem limit bc [[xgl ygl] zgl] cfg Hprop Hocc Hcfg.
  unfold Occupancy.GetGpu3DLaunchConfig in Hcfg.
  replace (xdim <=? 0) with false in Hcfg by (symmetry; apply Z.leb_gt; lia).
  replace (ydim <=? 0) with false in Hcfg by (symmetry; apply Z.leb_gt; lia).
  replace (zdim <=? 0) with false in Hcfg by (symmetry; apply Z.leb_gt; lia).
  cbn [orb] in Hcfg.
  apply bind_returns in Hcfg as (p & Hp & Hcfg).
  injection Hp as <-. rewrite Hprop in Hcfg. cbn [maxThreadsDim maxGridSize] in Hcfg.
  apply bind_returns in Hcfg as (r & Hr & Hcfg).
  rewrite Hocc in Hr. injection Hr as <-.
  apply bind_returns in Hcfg as (r & Hr & Hcfg).
  rewrite Hret in Hr. injection Hr as <-.
  apply bind_returns in Hcfg as ([[bx' by'] bz'] & _ & Hcfg).
  injection Hcfg as <-. cbn.
  apply mk_dim3_small; nia.
Qed.

Lemma threads_within_budget_witness :
  exists tx ty tz,
    snd (threads_per_axis 4096 4096 100 1024 1024 1024 64) = Ret (tx, ty, tz)
    /\ tx * ty * tz <= 1024.
Proof.
  destruct (threads_within_budget 4096 4096 100 1024 1024 1024 64)
    as (tx & ty & tz & H & Hp & _);
    try (unfold Int.max_int; lia).
  exists tx, ty, tz. now split.
Defined.

(** ** The 3D distribution *)

(** C1, as stated, fails.  For the extents (1, 1, 2147483647) and the
    example's device and occupancy answer (all positive), the addition
    [zdim + threadsz - 1] inside [DivUp(zdim, threadsz)] leaves the range of
    [int]; the function returns a z block count of 4261412865 where the
    stated formula gives 13. *)
Lemma GetGpu3DLaunchConfig_wraps_on_large_extent :
  Spec.blocks_z 2147483647 13 1 1 64 2147483647 = 13
  /\ snd (Occupancy.GetGpu3DLaunchConfig GOOGLE_CUDA 1 1 2147483647
            example_device example_driver tt 0 0)
     = Ret (Gpu2DLaunchConfig.make (Dim3 1 1 2147483647) (Dim3 1 1 64)
              (Dim3 1 1 4261412865))
  /\ ~ (let tx := Spec.threads_x 1 1024 1024 in
        let ty := Spec.threads_y 1 1024 tx 1024 in
        let tz := Spec.threads_z 2147483647 1024 tx ty 64 in
        let bx := Spec.blocks_x 1 13 tx 2147483647 in
        let by_ := Spec.blocks_y 1 13 bx ty 2147483647 in
        let bz := Spec.blocks_z 2147483647 13 bx by_ tz 2147483647 in
        snd (Occupancy.GetGpu3DLaunchConfig GOOGLE_CUDA 1 1 2147483647
               example_device example_driver tt 0 0)
        = Ret (Gpu2DLaunchConfig.make (Dim3 1 1 2147483647) (Dim3 tx ty tz)
                 (Dim3 bx by_ bz))).
Proof.
  split; [reflexivity|]. split; [reflexivity|].
  vm_compute. discriminate.
Qed.

(** C1, amended.  For positive extents, an occupancy answer
    [(block_count, thread_per_block)] with both components [>= 1] and
    thread and grid limits [>= 1], and provided none of the five additions
    inside [DivUp] leaves the range of [int], the CUDA build of
    [GetGpu3DLaunchConfig] returns [virtual_thread_count = (xdim, ydim,
    zdim)], [thread_per_block = (tx, ty, tz)] and [block_count = (bx, by,
    bz)] as given by the greedy formulas; for the extents (4096, 4096, 100)
    with the occupancy answer (13, 1024), thread limits (1024, 1024, 64)
    and grid limits 2^31-1 it returns threads (1024, 1, 1) and blocks
    (4, 4, 1). *)
Theorem GetGpu3DLaunchConfig_distribution :
  (forall F (xdim ydim zdim : Z) (d : GpuDevice) (drv : Driver F) (func : F)
          (smem limit bc tpb xtl ytl ztl xgl ygl zgl : Z),
     0 < xdim -> 0 < ydim -> 0 < zdim ->
     PotentialBlockSize drv func smem limit = (Success, (bc, tpb)) ->
     1 <= bc -> 1 <= tpb -> tpb <= Int.max_int ->
     maxThreadsDim (Properties drv) = (xtl, ytl, ztl) ->
     maxGridSize (Properties drv) = (xgl, ygl, zgl) ->
     1 <= xtl -> 1 <= ytl -> 1 <= ztl -> 1 <= xgl -> 1 <= ygl -> 1 <= zgl ->
     let tx := Spec.threads_x xdim tpb xtl in
     let ty := Spec.threads_y ydim tpb tx ytl in
     let tz := Spec.threads_z zdim tpb tx ty ztl in
     let bx := Spec.blocks_x xdim bc tx xgl in
     let by_ := Spec.blocks_y ydim bc bx ty ygl in
     let bz := Spec.blocks_z zdim bc bx by_ tz zgl in
     DivUp_fits xdim tx -> DivUp_fits bc bx -> DivUp_fits ydim ty ->
     DivUp_fits bc (bx * by_) -> DivUp_fits zdim tz ->
     snd (Occupancy.GetGpu3DLaunchConfig GOOGLE_CUDA xdim ydim zdim d drv func
            smem limit)
     = Ret (Gpu2DLaunchConfig.make (Dim3 xdim ydim zdim) (Dim3 tx ty tz)
              (Dim3 bx by_ bz)))
  /\ (forall F (d : GpuDevice) (drv : Driver F) (func : F) (smem limit : Z),
        PotentialBlockSize drv func smem limit = (Success, (13, 1024)) ->
        maxThreadsDim (Properties drv) = (1024, 1024, 64) ->
        maxGridSize (Properties drv) = (2147483647, 2147483647, 2147483647) ->
        snd (Occupancy.GetGpu3DLaunchConfig GOOGLE_CUDA 4096 4096 100 d drv
               func smem limit)
        = Ret (Gpu2DLaunchConfig.make (Dim3 4096 4096 100) (Dim3 1024 1 1)
                 (Dim3 4 4 1))).
Proof.
  assert (G : forall F (xdim ydim zdim : Z) (d : GpuDevice) (drv : Driver F)
                (func : F) (smem limit bc tpb xtl ytl ztl xgl ygl zgl : Z),
     0 < xdim -> 0 < ydim -> 0 < zdim ->
     PotentialBlockSize drv func smem limit = (Success, (bc, tpb)) ->
     1 <= bc -> 1 <= tpb -> tpb <= Int.max_int ->
     maxThreadsDim (Properties drv) = (xtl, ytl, ztl) ->
     maxGridSize (Properties drv) = (xgl, ygl, zgl) ->
     1 <= xtl -> 1 <= ytl -> 1 <= ztl -> 1 <= xgl -> 1 <= ygl -> 1 <= zgl ->
     let tx := Spec.threads_x xdim tpb xtl in
     let ty := Spec.threads_y ydim tpb tx ytl in
     let tz := Spec.threads_z zdim tpb tx ty ztl in
     let bx := Spec.blocks_x xdim bc tx xgl in
     let by_ := Spec.blocks_y ydim bc bx ty ygl in
     let bz := Spec.blocks_z zdim bc bx by_ tz zgl in
     DivUp_fits xdim tx -> DivUp_fits bc bx -> DivUp_fits ydim ty ->
     DivUp_fits bc (bx * by_) -> DivUp_fits zdim tz ->
     snd (Occupancy.GetGpu3DLaunchConfig GOOGLE_CUDA xdim ydim zdim d drv func
            smem limit)
     = Ret (Gpu2DLaunchConfig.make (Dim3 xdim ydim zdim) (Dim3 tx ty tz)
              (Dim3 bx by_ bz))).
  { intros F xdim ydim zdim d drv func smem limit bc tpb xtl ytl ztl
      xgl ygl zgl Hx Hy Hz Hocc Hbc Htpb Hint Htl Hgl
      Hxtl Hytl Hztl Hxgl Hygl Hzgl tx ty tz bx by_ bz Fx Fb Fy Fbb Fz.
    apply succeeds_returns.
    apply (GetGpu3DLaunchConfig_cuda_succeeds xdim ydim zdim d drv func
             smem limit bc tpb xtl ytl ztl xgl ygl zgl);
      (assumption || lia). }
  split; [exact G|].
  intros F d drv func smem limit Hocc Htl Hgl.
  apply (G F 4096 4096 100 d drv func smem limit 13 1024 1024 1024 64
           2147483647 2147483647 2147483647);
    try assumption; try (unfold Int.max_int; lia);
    unfold DivUp_fits, Int.max_int; vm_compute; discriminate.
Qed.

Lemma GetGpu3DLaunchConfig_distribution_witness :
  snd (Occupancy.GetGpu3DLaunchConfig GOOGLE_CUDA 300 200 100 example_device
         example_driver tt 0 0)
  = Ret (Gpu2DLaunchConfig.make (Dim3 300 200 100) (Dim3 300 3 1)
           (Dim3 1 13 1)).
Proof.
  apply (proj1 GetGpu3DLaunchConfig_distribution unit 300 200 100
           example_device example_driver tt 0 0 13 1024 1024 1024 64
           2147483647 2147483647 2147483647);
    try reflexivity; try (unfold Int.max_int; lia);
    unfold DivUp_fits, Int.max_int; vm_compute; discriminate.
Defined.

(** ** The occupancy-aware 1D function *)

(** Whatever the device reports, the divisor [min(1024, maxThreadsPerBlock)]
    is positive as soon as [maxThreadsPerBlock] is. *)
Lemma device_block_count_safe (n : Z) (d : GpuDevice) :
  1 <= ThreadsPerBlock d ->
  succeeds (device_block_count n d)
           (fun r => snd r = Spec.threads_per_block d /\ 1 <= snd r).
Proof.
  intros Hb. unfold device_block_count.
  step_query.
  step_query.
  step_query.
  eapply succeeds_bind; [apply succeeds_DivUp_any; lia|]. intros q _.
  step_query.
  apply succeeds_ret. unfold Spec.threads_per_block. cbn [snd]. lia.
Qed.

Lemma succeeds_DivUp_le a b :
  1 <= a -> a <= Int.max_int -> 1 <= b -> b <= Int.max_int ->
  succeeds (DivUp a b) (fun q => q <= ceil_div a b).
Proof.
  intros Ha Ha' Hb Hb'.
  destruct (DivUp_le_ceil_div a b Ha Ha' Hb Hb') as (q & E & Hq).
  rewrite E. split.
  - intros x y [Hin | []]. injection Hin as _ <-. lia.
  - now exists q.
Qed.

(** C2. For a positive work count [n] and an occupancy answer
    [(block_count, threads_per_block)] with [threads_per_block >= 1], the
    CUDA build of the occupancy-aware [GetGpuLaunchConfig] returns a
    configuration whose [block_count] is at most
    [ceil_div n threads_per_block] (and at most the occupancy answer's),
    whose [thread_per_block] is the occupancy answer's and whose
    [virtual_thread_count] is [n].  ([n] and [threads_per_block] are [int]
    values; when [n + threads_per_block - 1] leaves the range of [int] the
    returned [block_count] is negative.) *)
Theorem occupancy_block_count_clamped {F} (n : Z) (d : GpuDevice)
    (drv : Driver F) (func : F) (smem limit bc tpb : Z) :
  0 < n -> n <= Int.max_int ->
  PotentialBlockSize drv func smem limit = (Success, (bc, tpb)) ->
  1 <= tpb -> tpb <= Int.max_int ->
  exists cfg,
    snd (Occupancy.GetGpuLaunchConfig GOOGLE_CUDA n d drv func smem limit)
    = Ret cfg
    /\ GpuLaunchConfig.block_count cfg <= ceil_div n tpb
    /\ GpuLaunchConfig.block_count cfg <= bc
    /\ GpuLaunchConfig.thread_per_block cfg = tpb
    /\ GpuLaunchConfig.virtual_thread_count cfg = n.
Proof.
  intros Hn Hn' Hocc Ht Ht'.
  assert (H : succeeds
    (Occupancy.GetGpuLaunchConfig GOOGLE_CUDA n d drv func smem limit)
    (fun cfg => GpuLaunchConfig.block_count cfg <= ceil_div n tpb
                /\ GpuLaunchConfig.block_count cfg <= bc
                /\ GpuLaunchConfig.thread_per_block cfg = tpb
                /\ GpuLaunchConfig.virtual_thread_count cfg = n)).
  { unfold Occupancy.GetGpuLaunchConfig, Occupancy.occupancy_1d.
    step_check.
    eapply succeeds_bind with (P := fun r => r = (bc, tpb)).
    - eapply succeeds_bind;
        [apply succeeds_cudaOccupancyMaxPotentialBlockSize|].
      intros r ->. rewrite Hocc.
      step_check.
      apply succeeds_ret. reflexivity.
    - intros r ->.
      eapply succeeds_bind; [apply succeeds_DivUp_le; lia|]. intros q Hq. cbv beta in Hq.
      apply succeeds_ret.
      cbn [GpuLaunchConfig.block_count GpuLaunchConfig.thread_per_block
           GpuLaunchConfig.virtual_thread_count]. lia. }
  destruct H as [_ (cfg & Hcfg & Hp)]. now exists cfg.
Qed.

Lemma occupancy_block_count_clamped_witness :
  exists cfg,
    snd (Occupancy.GetGpuLaunchConfig GOOGLE_CUDA 10240 example_device
           example_driver tt 0 0) = Ret cfg
    /\ GpuLaunchConfig.block_count cfg <= ceil_div 10240 1024.
Proof.
  destruct (occupancy_block_count_clamped 10240 example_device example_driver
              tt 0 0 13 1024) as (cfg & H & Hb & _);
    try reflexivity; try (unfold Int.max_int; lia).
  exists cfg. now split.
Defined.

(** On the ROCm build, where the occupancy query is commented out, the
    same clamp applies to the block size [min(1024,
    maxHipThreadsPerBlock)]. *)
Lemma occupancy_block_count_clamped_rocm {F} (n : Z) (d : GpuDevice)
    (drv : Driver F) (func : F) (smem limit : Z) :
  0 < n -> n <= Int.max_int -> 1 <= ThreadsPerBlock d ->
  exists cfg,
    snd (Occupancy.GetGpuLaunchConfig TENSORFLOW_USE_ROCM n d drv func smem
           limit) = Ret cfg
    /\ GpuLaunchConfig.thread_per_block cfg = Z.min 1024 (ThreadsPerBlock d)
    /\ GpuLaunchConfig.block_count cfg
       <= ceil_div n (GpuLaunchConfig.thread_per_block cfg)
    /\ GpuLaunchConfig.virtual_thread_count cfg = n.
Proof.
  intros Hn Hn' Hb.
  assert (H : succeeds
    (Occupancy.GetGpuLaunchConfig TENSORFLOW_USE_ROCM n d drv func smem limit)
    (fun cfg =>
       GpuLaunchConfig.thread_per_block cfg = Z.min 1024 (ThreadsPerBlock d)
       /\ GpuLaunchConfig.block_count cfg
          <= ceil_div n (GpuLaunchConfig.thread_per_block cfg)
       /\ GpuLaunchConfig.virtual_thread_count cfg = n)).
  { unfold Occupancy.GetGpuLaunchConfig, Occupancy.occupancy_1d.
    step_check.
    eapply succeeds_bind; [now apply device_block_count_safe|].
    intros [bc tpb] [Ht Ht']. cbn [snd] in Ht, Ht'.
    unfold Spec.threads_per_block in Ht.
    eapply succeeds_bind;
      [apply succeeds_DivUp_le; unfold Int.max_int in *; lia|].
    intros q Hq. cbv beta in Hq. apply succeeds_ret.
    cbn [GpuLaunchConfig.block_count GpuLaunchConfig.thread_per_block
         GpuLaunchConfig.virtual_thread_count]. lia. }
  destruct H as [_ (cfg & Hcfg & Hp)]. now exists cfg.
Qed.

(** ** The fixed-block-size function *)

(** On the CUDA build the block count is clamped by
    [DivUp(work_element_count, fixed_block_size)]. *)
Lemma FixedBlockSize_cuda_clamped {F} (n : Z) (d : GpuDevice)
    (drv : Driver F) (func : F) (smem fbs active : Z) :
  0 < n -> n <= Int.max_int ->
  ActiveBlocks drv func fbs smem = (Success, active) ->
  1 <= fbs -> fbs <= Int.max_int ->
  exists cfg,
    snd (Occupancy.GetGpuLaunchConfigFixedBlockSize GOOGLE_CUDA n d drv func
           smem fbs) = Ret cfg
    /\ GpuLaunchConfig.thread_per_block cfg = fbs
    /\ GpuLaunchConfig.block_count cfg <= ceil_div n fbs.
Proof.
  intros Hn Hn' Hocc Hf Hf'.
  assert (H : succeeds
    (Occupancy.GetGpuLaunchConfigFixedBlockSize GOOGLE_CUDA n d drv func
       smem fbs)
    (fun cfg => GpuLaunchConfig.thread_per_block cfg = fbs
                /\ GpuLaunchConfig.block_count cfg <= ceil_div n fbs)).
  { unfold Occupancy.GetGpuLaunchConfigFixedBlockSize.
    step_check.
    eapply succeeds_bind with (P := fun q => q <= ceil_div n fbs).
    - eapply succeeds_bind;
        [apply succeeds_cudaOccupancyMaxActiveBlocksPerMultiprocessor|].
      intros r ->. rewrite Hocc.
      step_check.
      step_query.
      eapply succeeds_bind; [apply succeeds_DivUp_le; lia|]. intros q Hq. cbv beta in Hq.
      apply succeeds_ret. lia.
    - intros q Hq. apply succeeds_ret. now split. }
  destruct H as [_ (cfg & Hcfg & Hp)]. now exists cfg.
Qed.

(** [DivUp] of an [int] that is at most [c] never exceeds
    [ceil_div c b], whatever its sign. *)
Lemma succeeds_DivUp_le_any a b c :
  Int.in_range a -> 1 <= b -> b <= Int.max_int -> 1 <= c -> a <= c ->
  c <= Int.max_int ->
  succeeds (DivUp a b) (fun q => q <= ceil_div c b).
Proof.
  intros Ha Hb Hb' Hc Hac Hc'.
  pose proof (ceil_div_pos c b Hc Hb) as Hpos.
  destruct (Z_le_gt_dec 1 a) as [Hpa | Hna].
  - eapply succeeds_weaken;
      [apply succeeds_DivUp_le; unfold Int.in_range in Ha; lia|].
    intros q Hq. cbv beta in Hq.
    pose proof (ceil_div_mono a c b Hb Hac). lia.
  - unfold DivUp. rewrite sub_add_1, wrap_in_range
      by (unfold Int.in_range, Int.min_int, Int.max_int in *; lia).
    eapply succeeds_weaken; [apply succeeds_div_quot; lia|].
    intros q ->.
    destruct (Z_le_gt_dec 0 (a + b - 1)) as [Hp | Hn].
    + rewrite Z.quot_small by lia. lia.
    + pose proof (Z.quot_opp_l (- (a + b - 1)) b ltac:(lia)) as Hq.
      rewrite Z.opp_involutive in Hq. rewrite Hq.
      pose proof (Z.quot_pos (- (a + b - 1)) b ltac:(lia) ltac:(lia)).
      lia.
Qed.

(** Whatever the device reports, its block count never exceeds what
    covers the work with blocks of [min(1024, maxThreadsPerBlock)]. *)
Lemma device_block_count_le (n : Z) (d : GpuDevice) :
  0 < n -> n <= Int.max_int -> 1 <= ThreadsPerBlock d ->
  succeeds (device_block_count n d)
           (fun r => fst r <= ceil_div n (Z.min 1024 (ThreadsPerBlock d))).
Proof.
  intros Hn Hn' Hb. unfold device_block_count.
  step_query.
  step_query.
  step_query.
  pose proof (wrap_range (NumMultiProcessors d * ThreadsPerMultiProcessor d))
    as Hw.
  fold (Int.mul (NumMultiProcessors d) (ThreadsPerMultiProcessor d)) in Hw.
  eapply succeeds_bind.
  - apply (succeeds_DivUp_le_any _ _ n);
      unfold Int.in_range, Int.min_int, Int.max_int in *; lia.
  - intros q Hq. cbv beta in Hq.
    step_query.
    apply succeeds_ret. cbn [fst]. lia.
Qed.

(** On the ROCm build the claimed bound holds for the block sizes that do
    not exceed the heuristic's own, [min(1024, maxHipThreadsPerBlock)]. *)
Lemma FixedBlockSize_rocm_clamped_small_block {F} (n : Z) (d : GpuDevice)
    (drv : Driver F) (func : F) (smem fbs : Z) :
  0 < n -> n <= Int.max_int ->
  1 <= fbs -> fbs <= Z.min 1024 (ThreadsPerBlock d) ->
  exists cfg,
    snd (Occupancy.GetGpuLaunchConfigFixedBlockSize TENSORFLOW_USE_ROCM n d
           drv func smem fbs) = Ret cfg
    /\ GpuLaunchConfig.thread_per_block cfg = fbs
    /\ GpuLaunchConfig.block_count cfg <= ceil_div n fbs.
Proof.
  intros Hn Hn' Hf Hf'.
  assert (H : succeeds
    (Occupancy.GetGpuLaunchConfigFixedBlockSize TENSORFLOW_USE_ROCM n d drv
       func smem fbs)
    (fun cfg => GpuLaunchConfig.thread_per_block cfg = fbs
                /\ GpuLaunchConfig.block_count cfg <= ceil_div n fbs)).
  { unfold Occupancy.GetGpuLaunchConfigFixedBlockSize.
    step_check.
    eapply succeeds_bind with (P := fun q => q <= ceil_div n fbs).
    - eapply succeeds_bind; [apply device_block_count_le; lia|].
      intros [bc t] Hq. cbn [fst] in Hq. apply succeeds_ret.
      pose proof (ceil_div_antimono n fbs (Z.min 1024 (ThreadsPerBlock d))
                    ltac:(lia) Hf Hf').
      lia.
    - intros q Hq. apply succeeds_ret. now split. }
  destruct H as [_ (cfg & Hcfg & Hp)]. now exists cfg.
Qed.

(** C4 fails on the ROCm build.  There the occupancy query is commented
    out and [block_count] comes from the device's numbers with the block
    size [min(1024, maxHipThreadsPerBlock)]; it is not clamped by
    [DivUp(work_element_count, fixed_block_size)] as on the CUDA build.  For
    4096 work elements, [fixed_block_size = 2048] and a device with 64
    multiprocessors, 2048 threads per multiprocessor and 2048 threads per
    block, the function returns 4 blocks of 2048 threads, and
    [ceil_div 4096 2048 = 2]. *)
Theorem FixedBlockSize_rocm_exceeds_ceil_div :
  snd (Occupancy.GetGpuLaunchConfigFixedBlockSize TENSORFLOW_USE_ROCM 4096
         (Build_GpuDevice 64 2048 2048) example_driver tt 0 2048)
  = Ret (GpuLaunchConfig.make 4096 2048 4)
  /\ ceil_div 4096 2048 = 2.
Proof. split; reflexivity. Qed.

(** ** The 1D heuristic *)

(** With the product and the addition fitting, the block is the
    specification's formula. *)
Lemma device_block_count_succeeds (n : Z) (d : GpuDevice) :
  1 <= n ->
  1 <= NumMultiProcessors d -> 1 <= ThreadsPerMultiProcessor d ->
  1 <= ThreadsPerBlock d ->
  NumMultiProcessors d * ThreadsPerMultiProcessor d <= Int.max_int ->
  DivUp_fits (Spec.physical_thread_count n d) (Spec.threads_per_block d) ->
  succeeds (device_block_count n d)
           (fun r => r = (Spec.block_count n d, Spec.threads_per_block d)).
Proof.
  intros Hn Hsm Hmt Hmb Hprod Hfit. unfold device_block_count.
  step_query.
  step_query.
  step_query.
  rewrite mul_in_range
    by (unfold Int.in_range, Int.min_int, Int.max_int in *; nia).
  rewrite Z.min_comm.
  fold (Spec.physical_thread_count n d). fold (Spec.threads_per_block d).
  assert (1 <= Spec.physical_thread_count n d)
    by (unfold Spec.physical_thread_count; nia).
  assert (1 <= Spec.threads_per_block d)
    by (unfold Spec.threads_per_block; lia).
  eapply succeeds_bind; [apply succeeds_DivUp; (assumption || lia)|].
  intros q ->.
  step_query.
  now apply succeeds_ret.
Qed.

(** C5, as stated, fails.  For one work element and a device reporting
    65536 multiprocessors of 65536 threads each (and 1024 threads per
    block), all [>= 1], the product 65536 * 65536 = 2^32 wraps to 0 in
    [int]; the function returns [block_count = 0], where the stated
    formula gives 1 and the claim promises at least 1. *)
Lemma heuristic_1d_wraps_on_large_device :
  snd (Heuristic.GetGpuLaunchConfig 1 (Build_GpuDevice 65536 65536 1024))
  = Ret (GpuLaunchConfig.make 1 1024 0)
  /\ ~ (exists cfg,
          snd (Heuristic.GetGpuLaunchConfig 1 (Build_GpuDevice 65536 65536 1024))
          = Ret cfg
          /\ heuristic_1d_formula 1 (Build_GpuDevice 65536 65536 1024) cfg).
Proof.
  split; [reflexivity|].
  intros (cfg & H & _ & _ & _ & Hb & _).
  vm_compute in H. injection H as <-. cbn in Hb. lia.
Qed.

(** C5, amended.  For a positive work count [n] and a device whose three
    numbers are [>= 1], and provided the product [multiprocessor_count *
    max_threads_per_multiprocessor] and the addition inside [DivUp] stay in
    the range of [int], the heuristic [GetGpuLaunchConfig] returns
    [virtual_thread_count = n], [thread_per_block = min(1024,
    max_threads_per_block)] and [block_count = min(ceil_div(min(n,
    multiprocessor_count * max_threads_per_multiprocessor),
    thread_per_block), multiprocessor_count)], and
    [1 <= block_count <= multiprocessor_count]. *)
Theorem heuristic_1d_formula_holds (n : Z) (d : GpuDevice) :
  0 < n ->
  1 <= NumMultiProcessors d -> 1 <= ThreadsPerMultiProcessor d ->
  1 <= ThreadsPerBlock d ->
  NumMultiProcessors d * ThreadsPerMultiProcessor d <= Int.max_int ->
  DivUp_fits (Z.min n (NumMultiProcessors d * ThreadsPerMultiProcessor d))
             (Z.min 1024 (ThreadsPerBlock d)) ->
  exists cfg,
    snd (Heuristic.GetGpuLaunchConfig n d) = Ret cfg
    /\ heuristic_1d_formula n d cfg.
Proof.
  intros Hn Hsm Hmt Hmb Hprod Hfit.
  exists (GpuLaunchConfig.make n (Spec.threads_per_block d) (Spec.block_count n d)).
  split.
  - apply succeeds_returns. unfold Heuristic.GetGpuLaunchConfig.
    step_check.
    eapply succeeds_bind;
      [apply device_block_count_succeeds; (assumption || lia)|].
    intros r ->. now apply succeeds_ret.
  - unfold heuristic_1d_formula.
    cbn [GpuLaunchConfig.block_count GpuLaunchConfig.thread_per_block
         GpuLaunchConfig.virtual_thread_count].
    repeat split; try reflexivity.
    + assert (1 <= Spec.physical_thread_count n d)
        by (unfold Spec.physical_thread_count; nia).
      assert (1 <= Spec.threads_per_block d)
        by (unfold Spec.threads_per_block; lia).
      pose proof (ceil_div_pos (Spec.physical_thread_count n d)
                    (Spec.threads_per_block d) ltac:(lia) ltac:(lia)).
      unfold Spec.block_count. lia.
    + unfold Spec.block_count. lia.
Qed.

Lemma heuristic_1d_formula_holds_witness :
  exists cfg,
    snd (Heuristic.GetGpuLaunchConfig 10240 example_device) = Ret cfg
    /\ heuristic_1d_formula 10240 example_device cfg.
Proof.
  apply heuristic_1d_formula_holds;
    unfold DivUp_fits, Int.max_int; cbn; lia.
Defined.

(** C7, as stated, fails.  With 80 multiprocessors of 2048 threads each,
    1024 threads per block and a million work elements, no product or sum
    leaves the range of [int]; [physical_thread_count] is 163840, the
    block count is capped at the 80 multiprocessors, and 80 * 1024 = 81920
    threads are launched. *)
Lemma heuristic_1d_launches_fewer_than_physical :
  snd (Heuristic.GetGpuLaunchConfig 1000000 example_device)
  = Ret (GpuLaunchConfig.make 1000000 1024 80)
  /\ Spec.physical_thread_count 1000000 example_device = 163840
  /\ ~ (exists cfg,
          snd (Heuristic.GetGpuLaunchConfig 1000000 example_device) = Ret cfg
          /\ GpuLaunchConfig.block_count cfg * GpuLaunchConfig.thread_per_block cfg
             >= Spec.physical_thread_count 1000000 example_device).
Proof.
  split; [reflexivity|]. split; [reflexivity|].
  intros (cfg & H & Hge). vm_compute in H. injection H as <-.
  vm_compute in Hge. now apply Hge.
Qed.

(** C7, amended.  Under the preconditions of C5 (and with the product and
    the addition inside [DivUp] in the range of [int]), the launched
    threads [block_count * thread_per_block] cover
    [min(physical_thread_count, multiprocessor_count * thread_per_block)];
    they cover [physical_thread_count] itself when
    [ceil_div(physical_thread_count, thread_per_block)] does not exceed
    [multiprocessor_count]. *)
Theorem heuristic_1d_coverage (n : Z) (d : GpuDevice) :
  0 < n ->
  1 <= NumMultiProcessors d -> 1 <= ThreadsPerMultiProcessor d ->
  1 <= ThreadsPerBlock d ->
  NumMultiProcessors d * ThreadsPerMultiProcessor d <= Int.max_int ->
  DivUp_fits (Spec.physical_thread_count n d) (Spec.threads_per_block d) ->
  exists cfg,
    snd (Heuristic.GetGpuLaunchConfig n d) = Ret cfg
    /\ GpuLaunchConfig.block_count cfg * GpuLaunchConfig.thread_per_block cfg
       >= Z.min (Spec.physical_thread_count n d)
                (NumMultiProcessors d * GpuLaunchConfig.thread_per_block cfg)
    /\ (ceil_div (Spec.physical_thread_count n d)
                 (GpuLaunchConfig.thread_per_block cfg)
        <= NumMultiProcessors d ->
        GpuLaunchConfig.block_count cfg * GpuLaunchConfig.thread_per_block cfg
        >= Spec.physical_thread_count n d).
Proof.
  intros Hn Hsm Hmt Hmb Hprod Hfit.
  exists (GpuLaunchConfig.make n (Spec.threads_per_block d) (Spec.block_count n d)).
  split.
  - apply succeeds_returns. unfold Heuristic.GetGpuLaunchConfig.
    step_check.
    eapply succeeds_bind;
      [apply device_block_count_succeeds; (assumption || lia)|].
    intros r ->. now apply succeeds_ret.
  - cbn [GpuLaunchConfig.block_count GpuLaunchConfig.thread_per_block].
    assert (Ht : 1 <= Spec.threads_per_block d)
      by (unfold Spec.threads_per_block; lia).
    pose proof (ceil_div_covers (Spec.physical_thread_count n d)
                  (Spec.threads_per_block d) Ht) as Hc.
    unfold Spec.block_count. split.
    + destruct (Z.min_spec
                  (ceil_div (Spec.physical_thread_count n d)
                     (Spec.threads_per_block d))
                  (NumMultiProcessors d)) as [[_ ->] | [_ ->]]; lia.
    + intros Hle. rewrite Z.min_l by assumption. lia.
Qed.

Lemma heuristic_1d_coverage_witness :
  exists cfg,
    snd (Heuristic.GetGpuLaunchConfig 10240 example_device) = Ret cfg
    /\ GpuLaunchConfig.block_count cfg * GpuLaunchConfig.thread_per_block cfg
       >= Z.min (Spec.physical_thread_count 10240 example_device)
                (NumMultiProcessors example_device
                 * GpuLaunchConfig.thread_per_block cfg).
Proof.
  destruct (heuristic_1d_coverage 10240 example_device)
    as (cfg & H & Hc & _);
    try (unfold DivUp_fits, Int.max_int; cbn; lia).
  exists cfg. now split.
Defined.

(** ** The 2D heuristic *)

(** Under [max(_, 1)], truncating and flooring division agree. *)
Lemma max_quot_1 a b : 0 < b -> Z.max (Z.quot a b) 1 = Z.max (a / b) 1.
Proof.
  intros Hb. destruct (Z_le_gt_dec 0 a) as [Ha | Ha].
  - now rewrite Z.quot_div_nonneg.
  - pose proof (Z.quot_opp_l (- a) b ltac:(lia)) as Hq.
    rewrite Z.opp_involutive in Hq.
    pose proof (Z.quot_pos (- a) b ltac:(lia) ltac:(lia)).
    assert (a / b < 0) by (apply Z.div_lt_upper_bound; lia).
    lia.
Qed.

Section TwoD.
Variables (xdim ydim : Z) (d : GpuDevice).
Hypothesis xdim_pos : 1 <= xdim.
Hypothesis ydim_pos : 1 <= ydim.
Hypothesis xdim_fits : DivUp_fits xdim (Spec.block_cols xdim).

Local Abbreviation cols := (Spec.block_cols xdim).
Local Abbreviation rows := (Spec.block_rows xdim).

Lemma block_cols_bounds : 1 <= cols <= 256.
Proof using xdim_pos. unfold Spec.block_cols. lia. Qed.

Lemma block_rows_bounds : 1 <= rows <= 256.
Proof using xdim_pos.
  pose proof block_cols_bounds.
  assert (256 / cols <= 256) by (apply Z.div_le_upper_bound; lia).
  unfold Spec.block_rows. lia.
Qed.

Lemma max_blocks_bounds :
  Int.in_range (NumMultiProcessors d * ThreadsPerMultiProcessor d) ->
  1 <= Spec.max_blocks d <= Int.max_int.
Proof using Type.
  unfold Int.in_range, Int.min_int, Int.max_int, Spec.max_blocks.
  intros H.
  assert (NumMultiProcessors d * ThreadsPerMultiProcessor d / 256
          <= 2147483647) by (apply Z.div_le_upper_bound; lia).
  lia.
Qed.

Lemma grid_x_bounds : 1 <= Spec.grid_x xdim d <= Spec.max_blocks d.
Proof using xdim_pos.
  pose proof block_cols_bounds.
  pose proof (ceil_div_pos xdim cols xdim_pos ltac:(lia)).
  unfold Spec.grid_x, Spec.max_blocks in *. lia.
Qed.

Lemma grid_y_bounds : 1 <= Spec.grid_y xdim ydim d <= Spec.max_blocks d.
Proof using xdim_pos ydim_pos.
  pose proof grid_x_bounds as Hg.
  assert (1 <= Spec.max_blocks d / Spec.grid_x xdim d)
    by (apply Z.div_le_lower_bound; lia).
  assert (Spec.max_blocks d / Spec.grid_x xdim d <= Spec.max_blocks d)
    by (apply Z.div_le_upper_bound; nia).
  unfold Spec.grid_y. lia.
Qed.

(** When the addition in [DivUp(xdim, block_cols)] fits, every divisor of
    the 2D heuristic is positive; when also the device's product is in the
    range of [int], the configuration is the specification's. *)
Lemma GetGpu2DLaunchConfig_succeeds :
  succeeds (Heuristic.GetGpu2DLaunchConfig xdim ydim d)
    (fun cfg =>
       Int.in_range (NumMultiProcessors d * ThreadsPerMultiProcessor d) ->
       Gpu2DLaunchConfig.thread_per_block cfg = Dim3 cols rows 1
       /\ Gpu2DLaunchConfig.block_count cfg
          = Dim3 (Spec.grid_x xdim d) (Spec.grid_y xdim ydim d) 1).
Proof using All.
  pose proof block_cols_bounds as Hc.
  pose proof block_rows_bounds as Hr.
  unfold Heuristic.GetGpu2DLaunchConfig.
  not_degenerate. fold cols.
  eapply succeeds_bind; [apply succeeds_div; lia|]. intros q ->.
  fold rows.
  step_query.
  step_query.
  eapply succeeds_bind; [apply succeeds_div_quot; lia|]. intros q ->.
  rewrite max_quot_1 by lia.
  eapply succeeds_bind; [apply succeeds_DivUp; (assumption || lia)|].
  intros q ->.
  set (mb := Z.max (Int.mul (NumMultiProcessors d) (ThreadsPerMultiProcessor d)
                    / 256) 1).
  assert (Hmb : 1 <= mb) by (unfold mb; lia).
  pose proof (ceil_div_pos xdim cols xdim_pos ltac:(lia)) as Hcd.
  eapply succeeds_bind; [apply succeeds_div; lia|]. intros q ->.
  eapply succeeds_bind; [apply succeeds_div; lia|]. intros q ->.
  apply succeeds_ret. intros Hprod.
  cbn [Gpu2DLaunchConfig.thread_per_block Gpu2DLaunchConfig.block_count].
  unfold mb. rewrite mul_in_range by assumption.
  fold (Spec.max_blocks d). fold (Spec.grid_x xdim d).
  fold (Spec.grid_y xdim ydim d).
  pose proof (max_blocks_bounds Hprod).
  pose proof grid_x_bounds. pose proof grid_y_bounds.
  unfold Int.max_int in *.
  rewrite !mk_dim3_small by (unfold Int.max_int; lia). now split.
Qed.

End TwoD.

(** C6, as stated, fails.  For [xdim = 2147483647], [ydim = 1] and a device
    with 80 multiprocessors of 2048 threads, the addition [xdim + block_cols
    - 1] inside [DivUp] leaves the range of [int]; the function returns the
    grid (4286578689, 0, 1), where the stated formulas give
    [grid_x = min(8388608, 640) = 640] and [grid_y = 1]. *)
Lemma heuristic_2d_wraps_on_large_extent :
  snd (Heuristic.GetGpu2DLaunchConfig 2147483647 1 example_device)
  = Ret (Gpu2DLaunchConfig.make (Dim3 2147483647 1 1) (Dim3 256 1 1)
           (Dim3 4286578689 0 1))
  /\ Spec.grid_x 2147483647 example_device = 640
  /\ Spec.grid_y 2147483647 1 example_device = 1
  /\ ~ (exists cfg,
          snd (Heuristic.GetGpu2DLaunchConfig 2147483647 1 example_device)
          = Ret cfg
          /\ Gpu2DLaunchConfig.thread_per_block cfg
             = Dim3 (Spec.block_cols 2147483647) (Spec.block_rows 2147483647) 1
          /\ Gpu2DLaunchConfig.block_count cfg
             = Dim3 (Spec.grid_x 2147483647 example_device)
                    (Spec.grid_y 2147483647 1 example_device) 1).
Proof.
  split; [reflexivity|]. split; [reflexivity|]. split; [reflexivity|].
  intros (cfg & H & _ & Hb). vm_compute in H. injection H as <-.
  vm_compute in Hb. discriminate.
Qed.

(** C6, amended.  For positive [xdim] and [ydim], and provided the addition
    inside [DivUp(xdim, block_cols)] and the device's product
    [multiprocessor_count * max_threads_per_multiprocessor] stay in the
    range of [int], the heuristic [GetGpu2DLaunchConfig] returns
    [thread_per_block = (block_cols, block_rows, 1)] and
    [block_count = (grid_x, grid_y, 1)] with [block_cols = min(xdim, 256)],
    [block_rows = max(256 / block_cols, 1)], [max_blocks =
    max(physical_thread_count / 256, 1)], [grid_x = min(ceil_div(xdim,
    block_cols), max_blocks)] and [grid_y = min(max_blocks / grid_x,
    max(ydim / block_rows, 1))]; for (10240, 10240) and a physical thread
    count of 20480 these are 256, 1, 40 and 2. *)
Theorem heuristic_2d_formula_holds :
  (forall (xdim ydim : Z) (d : GpuDevice),
     0 < xdim -> 0 < ydim ->
     DivUp_fits xdim (Z.min xdim 256) ->
     Int.in_range (NumMultiProcessors d * ThreadsPerMultiProcessor d) ->
     let block_cols := Z.min xdim 256 in
     let block_rows := Z.max (256 / block_cols) 1 in
     let physical_thread_count :=
       NumMultiProcessors d * ThreadsPerMultiProcessor d in
     let max_blocks := Z.max (physical_thread_count / 256) 1 in
     let grid_x := Z.min (ceil_div xdim block_cols) max_blocks in
     let grid_y := Z.min (max_blocks / grid_x) (Z.max (ydim / block_rows) 1) in
     exists cfg,
       snd (Heuristic.GetGpu2DLaunchConfig xdim ydim d) = Ret cfg
       /\ Gpu2DLaunchConfig.thread_per_block cfg = Dim3 block_cols block_rows 1
       /\ Gpu2DLaunchConfig.block_count cfg = Dim3 grid_x grid_y 1)
  /\ (forall d,
        NumMultiProcessors d * ThreadsPerMultiProcessor d = 20480 ->
        exists cfg,
          snd (Heuristic.GetGpu2DLaunchConfig 10240 10240 d) = Ret cfg
          /\ Gpu2DLaunchConfig.thread_per_block cfg = Dim3 256 1 1
          /\ Gpu2DLaunchConfig.block_count cfg = Dim3 40 2 1).
Proof.
  assert (G : forall (xdim ydim : Z) (d : GpuDevice),
     0 < xdim -> 0 < ydim ->
     DivUp_fits xdim (Z.min xdim 256) ->
     Int.in_range (NumMultiProcessors d * ThreadsPerMultiProcessor d) ->
     exists cfg,
       snd (Heuristic.GetGpu2DLaunchConfig xdim ydim d) = Ret cfg
       /\ Gpu2DLaunchConfig.thread_per_block cfg
          = Dim3 (Spec.block_cols xdim) (Spec.block_rows xdim) 1
       /\ Gpu2DLaunchConfig.block_count cfg
          = Dim3 (Spec.grid_x xdim d) (Spec.grid_y xdim ydim d) 1).
  { intros xdim ydim d Hx Hy Hfit Hprod.
    destruct (GetGpu2DLaunchConfig_succeeds xdim ydim d
                ltac:(lia) ltac:(lia) Hfit) as [_ (cfg & Hcfg & Hp)].
    exists cfg. split; [assumption|]. now apply Hp. }
  split.
  - intros xdim ydim d Hx Hy Hfit Hprod. cbv zeta.
    now apply G.
  - intros d Hd.
    destruct (G 10240 10240 d) as (cfg & Hcfg & Ht & Hb);
      try (unfold DivUp_fits, Int.in_range, Int.min_int, Int.max_int; lia).
    exists cfg. split; [assumption|]. rewrite Ht, Hb.
    unfold Spec.grid_y, Spec.grid_x, Spec.max_blocks. rewrite Hd.
    split; reflexivity.
Qed.

Lemma heuristic_2d_formula_holds_witness :
  exists cfg,
    snd (Heuristic.GetGpu2DLaunchConfig 1000 300 example_device) = Ret cfg
    /\ Gpu2DLaunchConfig.thread_per_block cfg = Dim3 256 1 1
    /\ Gpu2DLaunchConfig.block_count cfg = Dim3 4 160 1.
Proof.
  apply (proj1 heuristic_2d_formula_holds 1000 300 example_device);
    unfold DivUp_fits, Int.in_range, Int.min_int, Int.max_int; cbn; lia.
Defined.

(** ** Division safety *)

Lemma succeeds_safe {A} (m : M A) (P : A -> Prop) : succeeds m P -> safe m.
Proof. intros H. eapply succeeds_weaken; [exact H | trivial]. Qed.

(** C10, as stated, fails.  For the extents (2147483647, 1, 1), the
    occupancy answer (13, 1024), thread limits (1024, 1024, 64) and grid
    limits 2^31-1 (all [>= 1]), the addition [xdim + threadsx - 1] inside
    [DivUp(xdim, threadsx)] leaves the range of [int]: [blocksx] is
    -2097151, [DivUp(block_count, blocksx)] divides by that negative number
    and gives [blocksy = 0], and [DivUp(block_count, blocksx * blocksy)]
    divides by zero. *)
Lemma GetGpu3DLaunchConfig_divides_by_zero :
  Occupancy.GetGpu3DLaunchConfig GOOGLE_CUDA 2147483647 1 1 example_device
    example_driver tt 0 0
  = ([Call GetDevice; Call GetDeviceProperties;
      Call OccupancyMaxPotentialBlockSize;
      Divide 1024 1024; Divide 1024 1024; Divide (-2147482626) 1024;
      Divide (-2097139) (-2097151); Divide 1 1; Divide 12 0],
     Trap)
  /\ ~ safe (Occupancy.GetGpu3DLaunchConfig GOOGLE_CUDA 2147483647 1 1
               example_device example_driver tt 0 0).
Proof.
  split; [reflexivity|].
  intros [_ (cfg & H & _)]. vm_compute in H. discriminate.
Qed.

(** C10, amended.  Every sizing function returns, having divided by
    strictly positive divisors only, under these preconditions: a positive
    work count and [max_threads_per_block >= 1] for the 1D heuristic and
    the ROCm builds of the two occupancy-aware 1D functions; a positive
    work count and an occupancy answer with [threads_per_block >= 1]
    (respectively [fixed_block_size >= 1]) for their CUDA builds; positive
    extents and an addition [xdim + block_cols - 1] in the range of [int]
    for the 2D heuristic; positive extents, an occupancy answer and limits
    all [>= 1], and additions [xdim + threadsx - 1], [block_count +
    blocksx - 1] and [ydim + threadsy - 1] in the range of [int] for the
    CUDA build of [GetGpu3DLaunchConfig] and of the occupancy-aware
    [GetGpu2DLaunchConfig]. *)
Theorem divisors_positive_when_additions_fit :
  (forall n d,
     0 < n -> 1 <= ThreadsPerBlock d ->
     safe (Heuristic.GetGpuLaunchConfig n d))
  /\ (forall F n d (drv : Driver F) func smem limit bc tpb,
     0 < n ->
     PotentialBlockSize drv func smem limit = (Success, (bc, tpb)) ->
     1 <= tpb ->
     safe (Occupancy.GetGpuLaunchConfig GOOGLE_CUDA n d drv func smem limit))
  /\ (forall F n d (drv : Driver F) func smem limit,
     0 < n -> 1 <= ThreadsPerBlock d ->
     safe (Occupancy.GetGpuLaunchConfig TENSORFLOW_USE_ROCM n d drv func
             smem limit))
  /\ (forall F n d (drv : Driver F) func smem fbs active,
     0 < n ->
     ActiveBlocks drv func fbs smem = (Success, active) ->
     1 <= fbs ->
     safe (Occupancy.GetGpuLaunchConfigFixedBlockSize GOOGLE_CUDA n d drv
             func smem fbs))
  /\ (forall F n d (drv : Driver F) func smem fbs,
     0 < n -> 1 <= ThreadsPerBlock d ->
     safe (Occupancy.GetGpuLaunchConfigFixedBlockSize TENSORFLOW_USE_ROCM n d
             drv func smem fbs))
  /\ (forall xdim ydim d,
     0 < xdim -> 0 < ydim ->
     DivUp_fits xdim (Z.min xdim 256) ->
     safe (Heuristic.GetGpu2DLaunchConfig xdim ydim d))
  /\ (forall F xdim ydim zdim d (drv : Driver F) func smem limit
            bc tpb xtl ytl ztl xgl ygl zgl,
     0 < xdim -> 0 < ydim -> 0 < zdim ->
     PotentialBlockSize drv func smem limit = (Success, (bc, tpb)) ->
     1 <= bc -> 1 <= tpb -> tpb <= Int.max_int ->
     maxThreadsDim (Properties drv) = (xtl, ytl, ztl) ->
     maxGridSize (Properties drv) = (xgl, ygl, zgl) ->
     1 <= xtl -> 1 <= ytl -> 1 <= ztl -> 1 <= xgl -> 1 <= ygl -> 1 <= zgl ->
     let tx := Spec.threads_x xdim tpb xtl in
     let ty := Spec.threads_y ydim tpb tx ytl in
     let bx := Spec.blocks_x xdim bc tx xgl in
     DivUp_fits xdim tx -> DivUp_fits bc bx -> DivUp_fits ydim ty ->
     safe (Occupancy.GetGpu3DLaunchConfig GOOGLE_CUDA xdim ydim zdim d drv
             func smem limit)
     /\ (zdim = 1 ->
         safe (Occupancy.GetGpu2DLaunchConfig GOOGLE_CUDA xdim ydim d drv
                 func smem limit))).
Proof.
  repeat apply conj.
  - intros n d Hn Hb. unfold Heuristic.GetGpuLaunchConfig.
    step_check.
    eapply succeeds_bind; [now apply device_block_count_safe|].
    intros [bc tpb] _. now apply succeeds_ret.
  - intros F n d drv func smem limit bc tpb Hn Hocc Ht.
    unfold Occupancy.GetGpuLaunchConfig, Occupancy.occupancy_1d.
    step_check.
    eapply succeeds_bind with (P := fun r => r = (bc, tpb)).
    + eapply succeeds_bind;
        [apply succeeds_cudaOccupancyMaxPotentialBlockSize|].
      intros r ->. rewrite Hocc.
      step_check.
      now apply succeeds_ret.
    + intros r ->.
      eapply succeeds_bind; [apply succeeds_DivUp_any; lia|]. intros q _.
      now apply succeeds_ret.
  - intros F n d drv func smem limit Hn Hb.
    unfold Occupancy.GetGpuLaunchConfig, Occupancy.occupancy_1d.
    step_check.
    eapply succeeds_bind; [now apply device_block_count_safe|].
    intros [bc tpb] [_ Ht]. cbn [snd] in Ht.
    eapply succeeds_bind; [apply succeeds_DivUp_any; lia|]. intros q _.
    now apply succeeds_ret.
  - intros F n d drv func smem fbs active Hn Hocc Hf.
    unfold Occupancy.GetGpuLaunchConfigFixedBlockSize.
    step_check.
    eapply succeeds_bind with (P := fun _ => True).
    + eapply succeeds_bind;
        [apply succeeds_cudaOccupancyMaxActiveBlocksPerMultiprocessor|].
      intros r ->. rewrite Hocc.
      step_check.
      step_query.
      eapply succeeds_bind; [apply succeeds_DivUp_any; lia|]. intros q _.
      now apply succeeds_ret.
    + intros q _. now apply succeeds_ret.
  - intros F n d drv func smem fbs Hn Hb.
    unfold Occupancy.GetGpuLaunchConfigFixedBlockSize.
    step_check.
    eapply succeeds_bind with (P := fun _ => True).
    + eapply succeeds_bind; [now apply device_block_count_safe|].
      intros [bc tpb] _. now apply succeeds_ret.
    + intros q _. now apply succeeds_ret.
  - intros xdim ydim d Hx Hy Hfit.
    eapply succeeds_safe.
    apply GetGpu2DLaunchConfig_succeeds; (assumption || lia).
  - intros F xdim ydim zdim d drv func smem limit bc tpb xtl ytl ztl
      xgl ygl zgl Hx Hy Hz Hocc Hbc Htpb Hint Htl Hgl
      Hxtl Hytl Hztl Hxgl Hygl Hzgl tx ty bx Fx Fb Fy.
    assert (S3 : safe (Occupancy.GetGpu3DLaunchConfig GOOGLE_CUDA xdim ydim
                         zdim d drv func smem limit)).
    { eapply succeeds_safe.
      apply (GetGpu3DLaunchConfig_cuda_safe xdim ydim zdim d drv func
               smem limit bc tpb xtl ytl ztl xgl ygl zgl);
        (assumption || lia). }
    split; [exact S3|]. intros ->. exact S3.
Qed.

Lemma divisors_positive_when_additions_fit_witness :
  safe (Heuristic.GetGpuLaunchConfig 10240 example_device)
  /\ safe (Heuristic.GetGpu2DLaunchConfig 10240 10240 example_device)
  /\ safe (Occupancy.GetGpu3DLaunchConfig GOOGLE_CUDA 4096 4096 100
             example_device example_driver tt 0 0).
Proof.
  pose proof divisors_positive_when_additions_fit
    as (H1 & _ & _ & _ & _ & H2 & H3).
  split; [|split].
  - apply H1; cbn; lia.
  - apply H2; unfold DivUp_fits, Int.max_int; cbn; lia.
  - apply (H3 unit 4096 4096 100 example_device example_driver tt 0 0
             13 1024 1024 1024 64 2147483647 2147483647 2147483647);
      try reflexivity; try (unfold Int.max_int; lia);
      unfold DivUp_fits, Int.max_int; vm_compute; discriminate.
Defined.

(** * Further properties of the code *)

(** ** Running a computation that starts with a known step *)

Lemma bind_eq {A B} (m : M A) (f : A -> M B) t a :
  m = (t, Ret a) -> bind m f = (t ++ fst (f a), snd (f a)).
Proof. intros ->. unfold bind. now destruct (f a). Qed.

Lemma snd_bind {A B} (m : M A) (f : A -> M B) a :
  snd m = Ret a -> snd (bind m f) = snd (f a).
Proof.
  destruct m as [t o]. simpl. intros ->. unfold bind. now destruct (f a).
Qed.

Lemma ceil_div_small a b : 1 <= a -> a <= b -> ceil_div a b = 1.
Proof.
  intros Ha Hb. unfold ceil_div.
  replace (a + b - 1) with ((a - 1) + 1 * b) by lia.
  rewrite Z.div_add by lia. rewrite Z.div_small by lia. reflexivity.
Qed.

(** ** [DivUp] *)

(** X1. When its addition stays in the range of [int], [DivUp a b] on
    [a >= 0], [b >= 1] returns the least number of groups of [b] that cover
    [a]: [q * b >= a] and [(q - 1) * b < a]. *)
Theorem DivUp_rounds_up (a b : Z) :
  0 <= a -> 1 <= b -> DivUp_fits a b ->
  exists q, snd (DivUp a b) = Ret q /\ (q - 1) * b < a <= q * b.
Proof.
  intros Ha Hb Hfit.
  exists (ceil_div a b). split.
  - apply succeeds_returns. now apply succeeds_DivUp.
  - pose proof (ceil_div_covers a b Hb).
    pose proof (ceil_div_mul_le a b Hb). nia.
Qed.

Lemma DivUp_rounds_up_witness :
  exists q, snd (DivUp 10240 1024) = Ret q /\ (q - 1) * 1024 < 10240 <= q * 1024.
Proof.
  apply DivUp_rounds_up; unfold DivUp_fits, Int.max_int; lia.
Defined.

(** ** Fatal preconditions *)

(** X2. With a work count that is zero or negative, the three 1D functions
    abort on their [CHECK_GT], on either build, before any device or driver
    call and before any division. *)
Theorem nonpositive_work_count_is_fatal {F} (b : backend) (n : Z)
    (d : GpuDevice) (drv : Driver F) (func : F) (smem limit fbs : Z) :
  n <= 0 ->
  Heuristic.GetGpuLaunchConfig n d = ([], Fatal)
  /\ Occupancy.GetGpuLaunchConfig b n d drv func smem limit = ([], Fatal)
  /\ Occupancy.GetGpuLaunchConfigFixedBlockSize b n d drv func smem fbs
     = ([], Fatal).
Proof.
  intros Hn.
  assert (E : CHECK_GT n 0 = ([], Fatal)).
  { unfold CHECK_GT. now replace (0 <? n) with false
      by (symmetry; apply Z.ltb_ge; lia). }
  unfold Heuristic.GetGpuLaunchConfig, Occupancy.GetGpuLaunchConfig,
    Occupancy.GetGpuLaunchConfigFixedBlockSize.
  rewrite E. repeat split.
Qed.

Lemma nonpositive_work_count_is_fatal_witness :
  Heuristic.GetGpuLaunchConfig 0 example_device = ([], Fatal)
  /\ Occupancy.GetGpuLaunchConfig TENSORFLOW_USE_ROCM (-5) example_device
       example_driver tt 0 0 = ([], Fatal).
Proof.
  split.
  - apply (nonpositive_work_count_is_fatal GOOGLE_CUDA 0 example_device
             example_driver tt 0 0 256). lia.
  - apply (nonpositive_work_count_is_fatal TENSORFLOW_USE_ROCM (-5)
             example_device example_driver tt 0 0 256). lia.
Defined.

(** X3. On the CUDA build a failed occupancy query is fatal: the
    occupancy-aware [GetGpuLaunchConfig], [GetGpuLaunchConfigFixedBlockSize]
    and (for positive extents) [GetGpu3DLaunchConfig] abort on their
    [CHECK_EQ] right after the query, having performed no division. *)
Theorem failed_occupancy_query_is_fatal {F} (d : GpuDevice) (drv : Driver F)
    (func : F) (smem : Z) :
  (forall n limit r,
     0 < n ->
     PotentialBlockSize drv func smem limit = (Failure, r) ->
     Occupancy.GetGpuLaunchConfig GOOGLE_CUDA n d drv func smem limit
     = ([Call OccupancyMaxPotentialBlockSize], Fatal))
  /\ (forall n fbs r,
     0 < n ->
     ActiveBlocks drv func fbs smem = (Failure, r) ->
     Occupancy.GetGpuLaunchConfigFixedBlockSize GOOGLE_CUDA n d drv func
       smem fbs
     = ([Call OccupancyMaxActiveBlocksPerMultiprocessor], Fatal))
  /\ (forall xdim ydim zdim limit r,
     0 < xdim -> 0 < ydim -> 0 < zdim ->
     PotentialBlockSize drv func smem limit = (Failure, r) ->
     Occupancy.GetGpu3DLaunchConfig GOOGLE_CUDA xdim ydim zdim d drv func
       smem limit
     = ([Call GetDevice; Call GetDeviceProperties;
         Call OccupancyMaxPotentialBlockSize], Fatal)).
Proof.
  repeat apply conj.
  - intros n limit r Hn Hq.
    unfold Occupancy.GetGpuLaunchConfig, Occupancy.occupancy_1d, CHECK_GT,
      cudaOccupancyMaxPotentialBlockSize.
    apply Z.ltb_lt in Hn. rewrite Hn, Hq. reflexivity.
  - intros n fbs r Hn Hq.
    unfold Occupancy.GetGpuLaunchConfigFixedBlockSize, CHECK_GT,
      cudaOccupancyMaxActiveBlocksPerMultiprocessor.
    apply Z.ltb_lt in Hn. rewrite Hn, Hq. reflexivity.
  - intros xdim ydim zdim limit r Hx Hy Hz Hq.
    unfold Occupancy.GetGpu3DLaunchConfig, Occupancy.occupancy_3d,
      cudaGetDeviceProperties, cudaOccupancyMaxPotentialBlockSize.
    replace (xdim <=? 0) with false by (symmetry; apply Z.leb_gt; lia).
    replace (ydim <=? 0) with false by (symmetry; apply Z.leb_gt; lia).
    replace (zdim <=? 0) with false by (symmetry; apply Z.leb_gt; lia).
    cbn [orb]. rewrite Hq.
    rewrite (bind_eq _ _ [Call GetDevice; Call GetDeviceProperties]
               (Properties drv) eq_refl).
    cbv beta.
    destruct (maxThreadsDim (Properties drv)) as [[xtl ytl] ztl].
    destruct (maxGridSize (Properties drv)) as [[xgl ygl] zgl].
    reflexivity.
Qed.

Lemma failed_occupancy_query_is_fatal_witness :
  Occupancy.GetGpu3DLaunchConfig GOOGLE_CUDA 4096 4096 100 example_device
    (Build_Driver unit (Build_DeviceProp (1024, 1024, 64) (65535, 65535, 65535))
       (fun _ _ _ => (Failure, (0, 0))) (fun _ _ _ => (Failure, 0)))
    tt 0 0
  = ([Call GetDevice; Call GetDeviceProperties;
      Call OccupancyMaxPotentialBlockSize], Fatal).
Proof.
  apply (proj2 (proj2 (failed_occupancy_query_is_fatal example_device
           (Build_Driver unit
              (Build_DeviceProp (1024, 1024, 64) (65535, 65535, 65535))
              (fun _ _ _ => (Failure, (0, 0))) (fun _ _ _ => (Failure, 0)))
           tt 0)) 4096 4096 100 0 (0, 0)); try lia. reflexivity.
Defined.

(** ** The 1D heuristic, beyond its formula *)

(** With a positive [maxThreadsPerBlock] the shared block runs to its end
    whatever the other numbers are; this is its trace and result. *)
Lemma device_block_count_eq (n : Z) (d : GpuDevice) :
  1 <= ThreadsPerBlock d ->
  let p := Z.min (Int.mul (NumMultiProcessors d) (ThreadsPerMultiProcessor d)) n in
  let t := Z.min 1024 (ThreadsPerBlock d) in
  let s := Int.sub (Int.add p t) 1 in
  device_block_count n d
  = ([Call getNumMultiProcessors; Call maxThreadsPerMultiProcessor;
      Call maxThreadsPerBlock; Divide s t; Call getNumMultiProcessors],
     Ret (Z.min (Z.quot s t) (NumMultiProcessors d), t)).
Proof.
  intros Hb p t s.
  unfold device_block_count, DivUp, d_getNumMultiProcessors,
    d_maxThreadsPerMultiProcessor, d_maxThreadsPerBlock, query.
  rewrite (bind_eq _ _ _ _ eq_refl). cbv beta.
  rewrite (bind_eq _ _ _ _ eq_refl). cbv beta.
  rewrite (bind_eq _ _ _ _ eq_refl). cbv beta.
  fold p. fold t. fold s.
  rewrite (div_positive s t) by (unfold t; lia).
  reflexivity.
Qed.

(** X4. For every positive work count and every device with
    [maxThreadsPerBlock >= 1], whatever its other numbers and whether or
    not the [int] arithmetic wraps, the heuristic [GetGpuLaunchConfig]
    returns a configuration with [virtual_thread_count = n], a block size
    between 1 and 1024 that does not exceed the device's maximum, and never
    more blocks than the device has multiprocessors. *)
Theorem heuristic_1d_never_exceeds_device (n : Z) (d : GpuDevice) :
  0 < n -> 1 <= ThreadsPerBlock d ->
  exists cfg,
    snd (Heuristic.GetGpuLaunchConfig n d) = Ret cfg
    /\ GpuLaunchConfig.virtual_thread_count cfg = n
    /\ 1 <= GpuLaunchConfig.thread_per_block cfg <= 1024
    /\ GpuLaunchConfig.thread_per_block cfg <= ThreadsPerBlock d
    /\ GpuLaunchConfig.block_count cfg <= NumMultiProcessors d.
Proof.
  intros Hn Hb.
  pose proof (device_block_count_eq n d Hb) as E. cbv zeta in E.
  unfold Heuristic.GetGpuLaunchConfig, CHECK_GT.
  apply Z.ltb_lt in Hn. rewrite Hn, E.
  eexists. split; [reflexivity|].
  cbn [GpuLaunchConfig.block_count GpuLaunchConfig.thread_per_block
       GpuLaunchConfig.virtual_thread_count].
  repeat split; lia.
Qed.

Lemma heuristic_1d_never_exceeds_device_witness :
  exists cfg,
    snd (Heuristic.GetGpuLaunchConfig 2147483647
           (Build_GpuDevice 65536 65536 4096)) = Ret cfg
    /\ GpuLaunchConfig.block_count cfg <= 65536.
Proof.
  destruct (heuristic_1d_never_exceeds_device 2147483647
              (Build_GpuDevice 65536 65536 4096))
    as (cfg & H & _ & _ & _ & Hb); try (cbn; lia).
  exists cfg. split; [exact H | exact Hb].
Defined.

(** X5. Work that fits one block gets exactly one block: when
    [n <= min(1024, maxThreadsPerBlock)] (and the device has at least one
    multiprocessor with at least one thread, their product in the range of
    [int]), the heuristic [GetGpuLaunchConfig] returns [block_count = 1]
    with a block that holds all [n] elements. *)
Theorem heuristic_1d_single_block (n : Z) (d : GpuDevice) :
  0 < n -> n <= Z.min 1024 (ThreadsPerBlock d) ->
  1 <= NumMultiProcessors d -> 1 <= ThreadsPerMultiProcessor d ->
  NumMultiProcessors d * ThreadsPerMultiProcessor d <= Int.max_int ->
  exists cfg,
    snd (Heuristic.GetGpuLaunchConfig n d) = Ret cfg
    /\ GpuLaunchConfig.block_count cfg = 1
    /\ n <= GpuLaunchConfig.thread_per_block cfg.
Proof.
  intros Hn Hsmall Hsm Hmt Hprod.
  exists (GpuLaunchConfig.make n (Spec.threads_per_block d) (Spec.block_count n d)).
  assert (Hp : 1 <= Spec.physical_thread_count n d <= n)
    by (unfold Spec.physical_thread_count; nia).
  split; [|split].
  - apply succeeds_returns. unfold Heuristic.GetGpuLaunchConfig.
    step_check.
    step ltac:(apply device_block_count_succeeds;
               unfold DivUp_fits, Spec.threads_per_block, Int.max_int in *;
               lia).
    intros r ->. now apply succeeds_ret.
  - cbn [GpuLaunchConfig.block_count]. unfold Spec.block_count.
    rewrite ceil_div_small by (unfold Spec.threads_per_block; lia). lia.
  - cbn [GpuLaunchConfig.thread_per_block]. unfold Spec.threads_per_block. lia.
Qed.

Lemma heuristic_1d_single_block_witness :
  exists cfg,
    snd (Heuristic.GetGpuLaunchConfig 1000 example_device) = Ret cfg
    /\ GpuLaunchConfig.block_count cfg = 1.
Proof.
  destruct (heuristic_1d_single_block 1000 example_device)
    as (cfg & H & Hb & _); try (unfold Int.max_int; cbn; lia).
  exists cfg. split; [exact H | exact Hb].
Defined.

(** X6. The heuristic block count grows with the work and then
    saturates: for [n <= n'] on the same device (numbers [>= 1], product
    and [DivUp] addition in the range of [int]) the block size is the same
    and [block_count] for [n] is at most that for [n']; once [n] reaches
    [multiprocessor_count * max_threads_per_multiprocessor] the two block
    counts are equal. *)
Theorem heuristic_1d_monotone_then_saturates (n n' : Z) (d : GpuDevice) :
  0 < n -> n <= n' ->
  1 <= NumMultiProcessors d -> 1 <= ThreadsPerMultiProcessor d ->
  1 <= ThreadsPerBlock d ->
  NumMultiProcessors d * ThreadsPerMultiProcessor d <= Int.max_int ->
  DivUp_fits (Spec.physical_thread_count n' d) (Spec.threads_per_block d) ->
  exists cfg cfg',
    snd (Heuristic.GetGpuLaunchConfig n d) = Ret cfg
    /\ snd (Heuristic.GetGpuLaunchConfig n' d) = Ret cfg'
    /\ GpuLaunchConfig.thread_per_block cfg = GpuLaunchConfig.thread_per_block cfg'
    /\ GpuLaunchConfig.block_count cfg <= GpuLaunchConfig.block_count cfg'
    /\ (NumMultiProcessors d * ThreadsPerMultiProcessor d <= n ->
        GpuLaunchConfig.block_count cfg = GpuLaunchConfig.block_count cfg').
Proof.
  intros Hn Hle Hsm Hmt Hmb Hprod Hfit.
  assert (R : forall m, 0 < m -> m <= n' ->
    snd (Heuristic.GetGpuLaunchConfig m d)
    = Ret (GpuLaunchConfig.make m (Spec.threads_per_block d)
             (Spec.block_count m d))).
  { intros m Hm Hm'. apply succeeds_returns.
    unfold Heuristic.GetGpuLaunchConfig. step_check.
    step ltac:(apply device_block_count_succeeds;
               unfold DivUp_fits, Spec.physical_thread_count in *; lia).
    intros r ->. now apply succeeds_ret. }
  do 2 eexists. split; [apply R; lia|]. split; [apply R; lia|].
  cbn [GpuLaunchConfig.block_count GpuLaunchConfig.thread_per_block].
  assert (Ht : 1 <= Spec.threads_per_block d)
    by (unfold Spec.threads_per_block; lia).
  split; [reflexivity|]. split.
  - pose proof (ceil_div_mono (Spec.physical_thread_count n d)
                  (Spec.physical_thread_count n' d)
                  (Spec.threads_per_block d) Ht
                  ltac:(unfold Spec.physical_thread_count; lia)).
    unfold Spec.block_count. lia.
  - intros Hsat. unfold Spec.block_count, Spec.physical_thread_count.
    rewrite (Z.min_r n) by lia. rewrite (Z.min_r n') by lia. reflexivity.
Qed.

Lemma heuristic_1d_monotone_then_saturates_witness :
  exists cfg cfg',
    snd (Heuristic.GetGpuLaunchConfig 5000 example_device) = Ret cfg
    /\ snd (Heuristic.GetGpuLaunchConfig 200000 example_device) = Ret cfg'
    /\ GpuLaunchConfig.block_count cfg <= GpuLaunchConfig.block_count cfg'.
Proof.
  destruct (heuristic_1d_monotone_then_saturates 5000 200000 example_device)
    as (cfg & cfg' & H & H' & _ & Hb & _);
    try (unfold DivUp_fits, Int.max_int; cbn; lia).
  exists cfg, cfg'. split; [exact H|]. split; [exact H' | exact Hb].
Defined.

(** ** The ROCm build *)

(** X7. On the ROCm build the occupancy-aware [GetGpuLaunchConfig] returns
    the configuration of the heuristic one, whatever kernel, shared-memory
    size and block-size limit it is given: for [n > 0],
    [maxThreadsPerBlock >= 1] and [n + min(1024, maxThreadsPerBlock) - 1] in
    the range of [int], the clamp by [DivUp(n, thread_per_block)] after the
    [#endif] changes nothing. *)
Theorem rocm_occupancy_1d_is_heuristic (n : Z) (d : GpuDevice) :
  0 < n -> 1 <= ThreadsPerBlock d ->
  DivUp_fits n (Z.min 1024 (ThreadsPerBlock d)) ->
  exists cfg,
    snd (Heuristic.GetGpuLaunchConfig n d) = Ret cfg
    /\ forall F (drv : Driver F) (func : F) (smem limit : Z),
         snd (Occupancy.GetGpuLaunchConfig TENSORFLOW_USE_ROCM n d drv func
                smem limit) = Ret cfg.
Proof.
  intros Hn Hb Hfit.
  pose proof (device_block_count_eq n d Hb) as E. cbv zeta in E.
  assert (Hn' : n <= Int.max_int)
    by (unfold DivUp_fits in Hfit; lia).
  destruct (device_block_count_le n d Hn Hn' Hb) as [_ (r & Hr & Hle)].
  rewrite E in Hr. cbn [snd] in Hr. injection Hr as <-. cbn [fst] in Hle.
  pose proof (succeeds_returns _ _
                (succeeds_DivUp n (Z.min 1024 (ThreadsPerBlock d))
                   ltac:(lia) ltac:(lia) Hfit)) as Hq.
  apply Z.ltb_lt in Hn.
  eexists. split.
  - unfold Heuristic.GetGpuLaunchConfig, CHECK_GT. rewrite Hn, E. reflexivity.
  - intros F drv func smem limit.
    unfold Occupancy.GetGpuLaunchConfig, Occupancy.occupancy_1d, CHECK_GT.
    rewrite Hn, E. cbv iota.
    rewrite (snd_bind (ret tt) _ tt eq_refl).
    rewrite (snd_bind (_, Ret _) _ _ eq_refl).
    rewrite (snd_bind _ _ _ Hq). cbn [snd ret].
    rewrite (Z.min_l _ (ceil_div n _)) by exact Hle. reflexivity.
Qed.

Lemma rocm_occupancy_1d_is_heuristic_witness :
  exists cfg,
    snd (Heuristic.GetGpuLaunchConfig 10240 example_device) = Ret cfg
    /\ snd (Occupancy.GetGpuLaunchConfig TENSORFLOW_USE_ROCM 10240
              example_device example_driver tt 4096 128) = Ret cfg.
Proof.
  destruct (rocm_occupancy_1d_is_heuristic 10240 example_device)
    as (cfg & H & H'); try (unfold DivUp_fits, Int.max_int; cbn; lia).
  exists cfg. split; [exact H | apply H'].
Defined.

(** X8. On the ROCm build [GetGpuLaunchConfigFixedBlockSize] makes the
    device calls and the division of the heuristic [GetGpuLaunchConfig] and
    returns its [block_count]; [fixed_block_size] only fills
    [thread_per_block], so the block count is the same for every block
    size, kernel and shared-memory size. *)
Theorem rocm_fixed_block_size_ignores_block_size (n : Z) (d : GpuDevice) :
  0 < n -> 1 <= ThreadsPerBlock d ->
  exists cfg,
    snd (Heuristic.GetGpuLaunchConfig n d) = Ret cfg
    /\ forall F (drv : Driver F) (func : F) (smem fbs : Z),
         Occupancy.GetGpuLaunchConfigFixedBlockSize TENSORFLOW_USE_ROCM n d
           drv func smem fbs
         = (fst (Heuristic.GetGpuLaunchConfig n d),
            Ret (GpuLaunchConfig.make n fbs (GpuLaunchConfig.block_count cfg))).
Proof.
  intros Hn Hb.
  pose proof (device_block_count_eq n d Hb) as E. cbv zeta in E.
  apply Z.ltb_lt in Hn.
  eexists. split.
  - unfold Heuristic.GetGpuLaunchConfig, CHECK_GT. rewrite Hn, E. reflexivity.
  - intros F drv func smem fbs.
    unfold Occupancy.GetGpuLaunchConfigFixedBlockSize,
      Heuristic.GetGpuLaunchConfig, CHECK_GT.
    rewrite Hn, E. reflexivity.
Qed.

Lemma rocm_fixed_block_size_ignores_block_size_witness :
  exists cfg,
    snd (Heuristic.GetGpuLaunchConfig 4096 (Build_GpuDevice 64 2048 2048))
    = Ret cfg
    /\ snd (Occupancy.GetGpuLaunchConfigFixedBlockSize TENSORFLOW_USE_ROCM
              4096 (Build_GpuDevice 64 2048 2048) example_driver tt 0 64)
       = Ret (GpuLaunchConfig.make 4096 64 (GpuLaunchConfig.block_count cfg)).
Proof.
  destruct (rocm_fixed_block_size_ignores_block_size 4096
              (Build_GpuDevice 64 2048 2048))
    as (cfg & H & H'); try (cbn; lia).
  exists cfg. split; [exact H|]. now rewrite H'.
Defined.

(** *** What the ROCm build never calls *)

Lemma avoids_ret {A} c (a : A) : avoids c (ret a).
Proof. intros []. Qed.

Lemma avoids_bind {A B} c (m : M A) (f : A -> M B) :
  avoids c m -> (forall a, avoids c (f a)) -> avoids c (bind m f).
Proof.
  unfold avoids. destruct m as [t [a | |]]; simpl; intros Hm Hf; auto.
  specialize (Hf a). destruct (f a) as [t' o]. simpl in *.
  intros Hin. apply in_app_or in Hin. tauto.
Qed.

Lemma avoids_query c c' v : c <> c' -> avoids c (query c' v).
Proof. intros Hc [H | []]. congruence. Qed.

Lemma avoids_div c a b : avoids c (div a b).
Proof.
  unfold avoids, div.
  destruct ((b =? 0) || ((a =? Int.min_int) && (b =? -1)));
    intros [H | []]; discriminate.
Qed.

Lemma avoids_CHECK_GT c a b : avoids c (CHECK_GT a b).
Proof. unfold avoids, CHECK_GT. destruct (b <? a); intros []. Qed.

Lemma avoids_device_block_count c n d :
  c = OccupancyMaxPotentialBlockSize
  \/ c = OccupancyMaxActiveBlocksPerMultiprocessor ->
  avoids c (device_block_count n d).
Proof.
  intros Hc. unfold device_block_count, d_getNumMultiProcessors,
    d_maxThreadsPerMultiProcessor, d_maxThreadsPerBlock, DivUp.
  repeat (apply avoids_bind; [|intros ?]);
    first [ apply avoids_ret | apply avoids_div
          | apply avoids_query; destruct Hc; subst; discriminate ].
Qed.

(** X9. On the ROCm build none of the occupancy-aware functions performs
    an occupancy query of the driver, for any arguments and whichever way
    the run ends. *)
Theorem rocm_build_never_queries_occupancy {F} (c : call) (n xdim ydim zdim : Z)
    (d : GpuDevice) (drv : Driver F) (func : F) (smem limit fbs : Z) :
  c = OccupancyMaxPotentialBlockSize
  \/ c = OccupancyMaxActiveBlocksPerMultiprocessor ->
  avoids c (Occupancy.GetGpuLaunchConfig TENSORFLOW_USE_ROCM n d drv func
              smem limit)
  /\ avoids c (Occupancy.GetGpuLaunchConfigFixedBlockSize TENSORFLOW_USE_ROCM
                 n d drv func smem fbs)
  /\ avoids c (Occupancy.GetGpu3DLaunchConfig TENSORFLOW_USE_ROCM xdim ydim
                 zdim d drv func smem limit)
  /\ avoids c (Occupancy.GetGpu2DLaunchConfig TENSORFLOW_USE_ROCM xdim ydim
                 d drv func smem limit).
Proof.
  intros Hc.
  assert (H3 : forall z,
    avoids c (Occupancy.GetGpu3DLaunchConfig TENSORFLOW_USE_ROCM xdim ydim z
                d drv func smem limit)).
  { intros z. unfold Occupancy.GetGpu3DLaunchConfig.
    destruct ((xdim <=? 0) || (ydim <=? 0) || (z <=? 0));
      [apply avoids_ret|].
    apply avoids_bind.
    - unfold avoids, cudaGetDeviceProperties. cbn [fst].
      intros [H | [H | []]]; destruct Hc; subst; discriminate.
    - intros p. destruct (maxThreadsDim p) as [[xtl ytl] ztl].
      destruct (maxGridSize p) as [[xgl ygl] zgl].
      apply avoids_bind.
      + unfold Occupancy.occupancy_3d, d_getNumMultiProcessors,
          d_maxThreadsPerMultiProcessor, d_maxThreadsPerBlock, DivUp.
        repeat (apply avoids_bind; [|intros ?]);
          first [ apply avoids_ret | apply avoids_div
                | apply avoids_query; destruct Hc; subst; discriminate ].
      + intros [bc tpb]. apply avoids_bind.
        * unfold threads_per_axis.
          repeat (apply avoids_bind; [|intros ?]);
            first [ apply avoids_ret | apply avoids_div ].
        * intros [[tx ty] tz]. apply avoids_bind.
          -- unfold blocks_per_axis, DivUp.
             repeat (apply avoids_bind; [|intros ?]);
               first [ apply avoids_ret | apply avoids_div ].
          -- intros [[bx by_] bz]. apply avoids_ret. }
  repeat apply conj.
  - unfold Occupancy.GetGpuLaunchConfig, Occupancy.occupancy_1d.
    apply avoids_bind; [apply avoids_CHECK_GT|]. intros _.
    apply avoids_bind; [now apply avoids_device_block_count|].
    intros [bc tpb]. unfold DivUp.
    apply avoids_bind; [apply avoids_div|]. intros q. apply avoids_ret.
  - unfold Occupancy.GetGpuLaunchConfigFixedBlockSize.
    apply avoids_bind; [apply avoids_CHECK_GT|]. intros _.
    apply avoids_bind; [|intros q; apply avoids_ret].
    apply avoids_bind; [now apply avoids_device_block_count|].
    intros [bc tpb]. apply avoids_ret.
  - apply H3.
  - unfold Occupancy.GetGpu2DLaunchConfig. apply H3.
Qed.

Lemma rocm_build_never_queries_occupancy_witness :
  avoids OccupancyMaxPotentialBlockSize
    (Occupancy.GetGpu3DLaunchConfig TENSORFLOW_USE_ROCM 4096 4096 100
       example_device example_driver tt 0 0).
Proof.
  apply (rocm_build_never_queries_occupancy OccupancyMaxPotentialBlockSize
           1 4096 4096 100 example_device example_driver tt 0 0 1).
  left. reflexivity.
Defined.

(** ** The CUDA build of the 1D functions *)

(** X10. When [n + threads_per_block - 1] stays in the range of [int], the
    CUDA build of the occupancy-aware [GetGpuLaunchConfig] returns
    [block_count = min(occupancy block_count, ceil_div(n,
    threads_per_block))]: at least one block when the occupancy answer has
    one, and, when the occupancy answer is at least what the work needs,
    exactly the blocks that cover the work ([block_count * thread_per_block
    >= n] with less than one block to spare). *)
Theorem cuda_occupancy_1d_covers_work {F} (n : Z) (d : GpuDevice)
    (drv : Driver F) (func : F) (smem limit bc tpb : Z) :
  0 < n ->
  PotentialBlockSize drv func smem limit = (Success, (bc, tpb)) ->
  1 <= tpb -> DivUp_fits n tpb ->
  exists cfg,
    snd (Occupancy.GetGpuLaunchConfig GOOGLE_CUDA n d drv func smem limit)
    = Ret cfg
    /\ GpuLaunchConfig.block_count cfg = Z.min bc (ceil_div n tpb)
    /\ (1 <= bc -> 1 <= GpuLaunchConfig.block_count cfg)
    /\ (ceil_div n tpb <= bc ->
        (GpuLaunchConfig.block_count cfg - 1) * tpb < n
        /\ n <= GpuLaunchConfig.block_count cfg * tpb).
Proof.
  intros Hn Hocc Ht Hfit.
  exists (GpuLaunchConfig.make n tpb (Z.min bc (ceil_div n tpb))).
  split; [|split; [reflexivity|]].
  - apply succeeds_returns.
    unfold Occupancy.GetGpuLaunchConfig, Occupancy.occupancy_1d.
    step_check.
    eapply succeeds_bind with (P := fun r => r = (bc, tpb)).
    + step ltac:(apply succeeds_cudaOccupancyMaxPotentialBlockSize).
      intros r ->. rewrite Hocc. step_check. now apply succeeds_ret.
    + intros r ->.
      step ltac:(apply succeeds_DivUp; (assumption || lia)).
      intros q ->. now apply succeeds_ret.
  - cbn [GpuLaunchConfig.block_count].
    pose proof (ceil_div_pos n tpb ltac:(lia) Ht).
    pose proof (ceil_div_covers n tpb Ht).
    pose proof (ceil_div_mul_le n tpb Ht).
    split; [lia|]. intros Hle. rewrite Z.min_r by exact Hle. nia.
Qed.

Lemma cuda_occupancy_1d_covers_work_witness :
  exists cfg,
    snd (Occupancy.GetGpuLaunchConfig GOOGLE_CUDA 10240 example_device
           example_driver tt 0 0) = Ret cfg
    /\ GpuLaunchConfig.block_count cfg = Z.min 13 (ceil_div 10240 1024).
Proof.
  destruct (cuda_occupancy_1d_covers_work 10240 example_device example_driver
              tt 0 0 13 1024) as (cfg & H & Hb & _);
    try reflexivity; try (unfold DivUp_fits, Int.max_int; lia).
  exists cfg. split; [exact H | exact Hb].
Defined.

(** X11. On the CUDA build, with [fixed_block_size >= 1] and no [int]
    overflow in [active_blocks * multiprocessor_count] or inside [DivUp],
    [GetGpuLaunchConfigFixedBlockSize] returns [thread_per_block =
    fixed_block_size] and [block_count = min(active_blocks *
    multiprocessor_count, ceil_div(n, fixed_block_size))].  If the driver
    reports that no block of that size can be resident ([active_blocks =
    0]) the returned configuration has zero blocks; if the device can hold
    what the work needs, the blocks cover the work. *)
Theorem cuda_fixed_block_size_formula {F} (n : Z) (d : GpuDevice)
    (drv : Driver F) (func : F) (smem fbs active : Z) :
  0 < n ->
  ActiveBlocks drv func fbs smem = (Success, active) ->
  1 <= fbs -> DivUp_fits n fbs ->
  Int.in_range (active * NumMultiProcessors d) ->
  exists cfg,
    snd (Occupancy.GetGpuLaunchConfigFixedBlockSize GOOGLE_CUDA n d drv func
           smem fbs) = Ret cfg
    /\ GpuLaunchConfig.virtual_thread_count cfg = n
    /\ GpuLaunchConfig.thread_per_block cfg = fbs
    /\ GpuLaunchConfig.block_count cfg
       = Z.min (active * NumMultiProcessors d) (ceil_div n fbs)
    /\ (active = 0 -> GpuLaunchConfig.block_count cfg = 0)
    /\ (ceil_div n fbs <= active * NumMultiProcessors d ->
        n <= GpuLaunchConfig.block_count cfg * fbs).
Proof.
  intros Hn Hocc Hf Hfit Hprod.
  exists (GpuLaunchConfig.make n fbs
            (Z.min (active * NumMultiProcessors d) (ceil_div n fbs))).
  split; [|repeat split].
  - apply succeeds_returns.
    unfold Occupancy.GetGpuLaunchConfigFixedBlockSize. step_check.
    eapply succeeds_bind
      with (P := fun q => q = Z.min (active * NumMultiProcessors d)
                                    (ceil_div n fbs)).
    + step ltac:(apply succeeds_cudaOccupancyMaxActiveBlocksPerMultiprocessor).
      intros r ->. rewrite Hocc. step_check. step_query.
      step ltac:(apply succeeds_DivUp; (assumption || lia)).
      intros q ->. apply succeeds_ret. now rewrite mul_in_range.
    + intros q ->. now apply succeeds_ret.
  - intros ->. cbn [GpuLaunchConfig.block_count].
    pose proof (ceil_div_pos n fbs ltac:(lia) Hf). lia.
  - intros Hle. cbn [GpuLaunchConfig.block_count].
    rewrite Z.min_r by exact Hle. apply ceil_div_covers. exact Hf.
Qed.

Lemma cuda_fixed_block_size_formula_witness :
  exists cfg,
    snd (Occupancy.GetGpuLaunchConfigFixedBlockSize GOOGLE_CUDA 10240
           example_device example_driver tt 0 256) = Ret cfg
    /\ GpuLaunchConfig.block_count cfg = 40.
Proof.
  destruct (cuda_fixed_block_size_formula 10240 example_device example_driver
              tt 0 256 2) as (cfg & H & _ & _ & Hb & _);
    try reflexivity;
    try (unfold DivUp_fits, Int.in_range, Int.min_int, Int.max_int; cbn; lia).
  exists cfg. split; [exact H | exact Hb].
Defined.

(** ** Degenerate occupancy answers *)

Lemma snd_bind_trap {A B} (m : M A) (f : A -> M B) :
  snd m = Trap -> snd (bind m f) = Trap.
Proof. destruct m as [t o]. simpl. now intros ->. Qed.

(** X12. A block size of zero makes the CUDA build divide by zero: the
    occupancy-aware [GetGpuLaunchConfig] when a successful query stores
    [thread_per_block = 0], [GetGpuLaunchConfigFixedBlockSize] when called
    with [fixed_block_size = 0], and [GetGpu3DLaunchConfig] (positive
    extents, x thread limit not negative) when the query stores
    [thread_per_block = 0].  None of them guards the divisor. *)
Theorem zero_block_size_divides_by_zero {F} (d : GpuDevice) (drv : Driver F)
    (func : F) (smem : Z) :
  (forall n limit bc,
     0 < n ->
     PotentialBlockSize drv func smem limit = (Success, (bc, 0)) ->
     snd (Occupancy.GetGpuLaunchConfig GOOGLE_CUDA n d drv func smem limit)
     = Trap)
  /\ (forall n active,
     0 < n ->
     ActiveBlocks drv func 0 smem = (Success, active) ->
     snd (Occupancy.GetGpuLaunchConfigFixedBlockSize GOOGLE_CUDA n d drv
            func smem 0) = Trap)
  /\ (forall xdim ydim zdim limit bc xtl ytl ztl,
     0 < xdim -> 0 < ydim -> 0 < zdim ->
     PotentialBlockSize drv func smem limit = (Success, (bc, 0)) ->
     maxThreadsDim (Properties drv) = (xtl, ytl, ztl) -> 0 <= xtl ->
     snd (Occupancy.GetGpu3DLaunchConfig GOOGLE_CUDA xdim ydim zdim d drv
            func smem limit) = Trap).
Proof.
  repeat apply conj.
  - intros n limit bc Hn Hq.
    unfold Occupancy.GetGpuLaunchConfig, Occupancy.occupancy_1d, CHECK_GT,
      cudaOccupancyMaxPotentialBlockSize.
    apply Z.ltb_lt in Hn. rewrite Hn, Hq. reflexivity.
  - intros n active Hn Hq.
    unfold Occupancy.GetGpuLaunchConfigFixedBlockSize, CHECK_GT,
      cudaOccupancyMaxActiveBlocksPerMultiprocessor.
    apply Z.ltb_lt in Hn. rewrite Hn, Hq. reflexivity.
  - intros xdim ydim zdim limit bc xtl ytl ztl Hx Hy Hz Hq Htl Hxtl.
    unfold Occupancy.GetGpu3DLaunchConfig, Occupancy.occupancy_3d,
      cudaGetDeviceProperties, cudaOccupancyMaxPotentialBlockSize.
    replace (xdim <=? 0) with false by (symmetry; apply Z.leb_gt; lia).
    replace (ydim <=? 0) with false by (symmetry; apply Z.leb_gt; lia).
    replace (zdim <=? 0) with false by (symmetry; apply Z.leb_gt; lia).
    cbn [orb]. rewrite Hq.
    rewrite (bind_eq _ _ [Call GetDevice; Call GetDeviceProperties]
               (Properties drv) eq_refl).
    cbv beta. rewrite Htl.
    destruct (maxGridSize (Properties drv)) as [[xgl ygl] zgl].
    cbn [snd].
    rewrite (snd_bind _ _ (bc, 0)) by reflexivity.
    apply snd_bind_trap. unfold threads_per_axis.
    apply snd_bind_trap.
    replace (min3 xdim 0 xtl) with 0 by (unfold min3; lia).
    reflexivity.
Qed.

Lemma zero_block_size_divides_by_zero_witness :
  snd (Occupancy.GetGpuLaunchConfig GOOGLE_CUDA 10240 example_device
         (Build_Driver unit (Build_DeviceProp (1024, 1024, 64) (65535, 65535, 65535))
            (fun _ _ _ => (Success, (0, 0))) (fun _ _ _ => (Success, 0)))
         tt 0 0) = Trap.
Proof.
  apply (proj1 (zero_block_size_divides_by_zero example_device
           (Build_Driver unit
              (Build_DeviceProp (1024, 1024, 64) (65535, 65535, 65535))
              (fun _ _ _ => (Success, (0, 0))) (fun _ _ _ => (Success, 0)))
           tt 0) 10240 0 0); [lia | reflexivity].
Defined.

(** X13. An occupancy answer with [block_count = 0] makes
    [GetGpu3DLaunchConfig] divide by zero (CUDA build, positive extents,
    [thread_per_block >= 1], thread limits [>= 1], x grid limit not
    negative, [xdim + threadsx - 1] in the range of [int]): [blocksx] is
    [min(0, ...)] = 0 and [DivUp(block_count, blocksx)] divides by it.  The
    1D function, which never divides by a block count, returns a
    configuration with zero blocks instead. *)
Theorem zero_block_count_divides_by_zero_in_3D {F}
    (xdim ydim zdim : Z) (d : GpuDevice) (drv : Driver F) (func : F)
    (smem limit tpb xtl ytl ztl xgl ygl zgl : Z) :
  0 < xdim -> 0 < ydim -> 0 < zdim ->
  PotentialBlockSize drv func smem limit = (Success, (0, tpb)) ->
  1 <= tpb -> tpb <= Int.max_int ->
  maxThreadsDim (Properties drv) = (xtl, ytl, ztl) ->
  maxGridSize (Properties drv) = (xgl, ygl, zgl) ->
  1 <= xtl -> 1 <= ytl -> 1 <= ztl -> 0 <= xgl ->
  DivUp_fits xdim (Spec.threads_x xdim tpb xtl) ->
  snd (Occupancy.GetGpu3DLaunchConfig GOOGLE_CUDA xdim ydim zdim d drv func
         smem limit) = Trap.
Proof.
  intros Hx Hy Hz Hq Ht Hti Htl Hgl Hxtl Hytl Hztl Hxgl Hfit.
  pose proof (threads_x_bounds xdim ydim zdim tpb xtl ytl ztl
                ltac:(lia) ltac:(lia) ltac:(lia) Ht Hxtl Hytl Hztl)
    as (Bx & _).
  pose proof (succeeds_returns _ _
                (threads_per_axis_succeeds xdim ydim zdim tpb xtl ytl ztl
                   ltac:(lia) ltac:(lia) ltac:(lia) Ht Hxtl Hytl Hztl Hti))
    as Hthreads.
  pose proof (succeeds_returns _ _
                (succeeds_DivUp xdim (Spec.threads_x xdim tpb xtl)
                   ltac:(lia) ltac:(lia) Hfit)) as Hdiv.
  pose proof (ceil_div_pos xdim (Spec.threads_x xdim tpb xtl)
                ltac:(lia) ltac:(lia)) as Hpos.
  unfold Occupancy.GetGpu3DLaunchConfig, Occupancy.occupancy_3d,
    cudaGetDeviceProperties, cudaOccupancyMaxPotentialBlockSize.
  replace (xdim <=? 0) with false by (symmetry; apply Z.leb_gt; lia).
  replace (ydim <=? 0) with false by (symmetry; apply Z.leb_gt; lia).
  replace (zdim <=? 0) with false by (symmetry; apply Z.leb_gt; lia).
  cbn [orb]. rewrite Hq.
  rewrite (bind_eq _ _ [Call GetDevice; Call GetDeviceProperties]
             (Properties drv) eq_refl).
  cbv beta. rewrite Htl, Hgl. cbn [snd].
  rewrite (snd_bind _ _ (0, tpb)) by reflexivity.
  rewrite (snd_bind _ _ _ Hthreads).
  apply snd_bind_trap. unfold blocks_per_axis.
  rewrite (snd_bind _ _ _ Hdiv).
  apply snd_bind_trap.
  replace (min3 0 (ceil_div xdim (Spec.threads_x xdim tpb xtl)) xgl) with 0
    by (unfold min3; lia).
  reflexivity.
Qed.

Lemma zero_block_count_divides_by_zero_in_3D_witness :
  snd (Occupancy.GetGpu3DLaunchConfig GOOGLE_CUDA 4096 4096 100 example_device
         (Build_Driver unit
            (Build_DeviceProp (1024, 1024, 64) (65535, 65535, 65535))
            (fun _ _ _ => (Success, (0, 1024))) (fun _ _ _ => (Success, 0)))
         tt 0 0) = Trap.
Proof.
  apply (zero_block_count_divides_by_zero_in_3D 4096 4096 100 example_device
           (Build_Driver unit
              (Build_DeviceProp (1024, 1024, 64) (65535, 65535, 65535))
              (fun _ _ _ => (Success, (0, 1024))) (fun _ _ _ => (Success, 0)))
           tt 0 0 1024 1024 1024 64 65535 65535 65535);
    try reflexivity; try (unfold Int.max_int; lia);
    unfold DivUp_fits, Int.max_int; vm_compute; discriminate.
Defined.

(** ** The 3D distribution, beyond its formula *)

(** X14. Under the preconditions of the 3D formula (positive extents,
    occupancy answer and limits [>= 1], the five [DivUp] additions in the
    range of [int]) the configuration respects the device: every per-axis
    thread count is between 1 and the device's thread limit for that axis,
    and every per-axis block count is between 1 and the device's grid limit
    for that axis. *)
Theorem GetGpu3DLaunchConfig_respects_device_limits {F}
    (xdim ydim zdim : Z) (d : GpuDevice) (drv : Driver F) (func : F)
    (smem limit bc tpb xtl ytl ztl xgl ygl zgl : Z) :
  0 < xdim -> 0 < ydim -> 0 < zdim ->
  PotentialBlockSize drv func smem limit = (Success, (bc, tpb)) ->
  1 <= bc -> 1 <= tpb -> tpb <= Int.max_int ->
  maxThreadsDim (Properties drv) = (xtl, ytl, ztl) ->
  maxGridSize (Properties drv) = (xgl, ygl, zgl) ->
  1 <= xtl -> 1 <= ytl -> 1 <= ztl -> 1 <= xgl -> 1 <= ygl -> 1 <= zgl ->
  let tx := Spec.threads_x xdim tpb xtl in
  let ty := Spec.threads_y ydim tpb tx ytl in
  let tz := Spec.threads_z zdim tpb tx ty ztl in
  let bx := Spec.blocks_x xdim bc tx xgl in
  let by_ := Spec.blocks_y ydim bc bx ty ygl in
  DivUp_fits xdim tx -> DivUp_fits bc bx -> DivUp_fits ydim ty ->
  DivUp_fits bc (bx * by_) -> DivUp_fits zdim tz ->
  exists cfg,
    snd (Occupancy.GetGpu3DLaunchConfig GOOGLE_CUDA xdim ydim zdim d drv func
           smem limit) = Ret cfg
    /\ 1 <= dim_x (Gpu2DLaunchConfig.thread_per_block cfg) <= xtl
    /\ 1 <= dim_y (Gpu2DLaunchConfig.thread_per_block cfg) <= ytl
    /\ 1 <= dim_z (Gpu2DLaunchConfig.thread_per_block cfg) <= ztl
    /\ 1 <= dim_x (Gpu2DLaunchConfig.block_count cfg) <= xgl
    /\ 1 <= dim_y (Gpu2DLaunchConfig.block_count cfg) <= ygl
    /\ 1 <= dim_z (Gpu2DLaunchConfig.block_count cfg) <= zgl.
Proof.
  intros Hx Hy Hz Hocc Hbc Htpb Hint Htl Hgl Hxtl Hytl Hztl Hxgl Hygl Hzgl
    tx ty tz bx by_ Fx Fb Fy Fbb Fz.
  pose proof (threads_x_bounds xdim ydim zdim tpb xtl ytl ztl
                ltac:(lia) ltac:(lia) ltac:(lia) Htpb Hxtl Hytl Hztl)
    as (Bx & _ & Bxl).
  pose proof (threads_y_bounds xdim ydim zdim tpb xtl ytl ztl
                ltac:(lia) ltac:(lia) ltac:(lia) Htpb Hxtl Hytl Hztl)
    as (By & Byl & _).
  pose proof (threads_z_bounds xdim ydim zdim tpb xtl ytl ztl
                ltac:(lia) ltac:(lia) ltac:(lia) Htpb Hxtl Hytl Hztl)
    as (Bz & Bzl & _).
  fold tx in Bx, Bxl, By, Byl, Bz, Bzl. fold ty in By, Byl, Bz, Bzl.
  fold tz in Bz, Bzl.
  pose proof (blocks_x_bounds xdim ydim zdim bc tx ty tz xgl ygl zgl
                ltac:(lia) ltac:(lia) ltac:(lia) ltac:(lia) ltac:(lia)
                ltac:(lia) Hbc Hxgl Hygl Hzgl) as (Cx & Cxl).
  pose proof (blocks_y_bounds xdim ydim zdim bc tx ty tz xgl ygl zgl
                ltac:(lia) ltac:(lia) ltac:(lia) ltac:(lia) ltac:(lia)
                ltac:(lia) Hbc Hxgl Hygl Hzgl) as (Cy & Cyl & _).
  pose proof (blocks_z_bounds xdim ydim zdim bc tx ty tz xgl ygl zgl
                ltac:(lia) ltac:(lia) ltac:(lia) ltac:(lia) ltac:(lia)
                ltac:(lia) Hbc Hxgl Hygl Hzgl) as (Cz & Czl).
  eexists. split.
  - apply succeeds_returns.
    apply (GetGpu3DLaunchConfig_cuda_succeeds xdim ydim zdim d drv func
             smem limit bc tpb xtl ytl ztl xgl ygl zgl);
      (assumption || lia).
  - cbn [Gpu2DLaunchConfig.thread_per_block Gpu2DLaunchConfig.block_count
         dim_x dim_y dim_z].
    subst tx ty tz bx by_. repeat split; lia.
Qed.

Lemma GetGpu3DLaunchConfig_respects_device_limits_witness :
  exists cfg,
    snd (Occupancy.GetGpu3DLaunchConfig GOOGLE_CUDA 300 200 100 example_device
           example_driver tt 0 0) = Ret cfg
    /\ 1 <= dim_z (Gpu2DLaunchConfig.thread_per_block cfg) <= 64.
Proof.
  destruct (GetGpu3DLaunchConfig_respects_device_limits 300 200 100
              example_device example_driver tt 0 0 13 1024 1024 1024 64
              2147483647 2147483647 2147483647)
    as (cfg & H & _ & _ & Hz & _);
    try reflexivity; try (unfold Int.max_int; lia);
    try (unfold DivUp_fits, Int.max_int; vm_compute; discriminate).
  exists cfg. split; [exact H | exact Hz].
Defined.

(** X15. Under the same preconditions no axis gets a block that lies
    wholly outside the work: on each axis [(blocks - 1) * threads] is less
    than the extent, and the x block count does not exceed the occupancy
    answer's [block_count]. *)
Theorem GetGpu3DLaunchConfig_no_idle_block {F}
    (xdim ydim zdim : Z) (d : GpuDevice) (drv : Driver F) (func : F)
    (smem limit bc tpb xtl ytl ztl xgl ygl zgl : Z) :
  0 < xdim -> 0 < ydim -> 0 < zdim ->
  PotentialBlockSize drv func smem limit = (Success, (bc, tpb)) ->
  1 <= bc -> 1 <= tpb -> tpb <= Int.max_int ->
  maxThreadsDim (Properties drv) = (xtl, ytl, ztl) ->
  maxGridSize (Properties drv) = (xgl, ygl, zgl) ->
  1 <= xtl -> 1 <= ytl -> 1 <= ztl -> 1 <= xgl -> 1 <= ygl -> 1 <= zgl ->
  let tx := Spec.threads_x xdim tpb xtl in
  let ty := Spec.threads_y ydim tpb tx ytl in
  let tz := Spec.threads_z zdim tpb tx ty ztl in
  let bx := Spec.blocks_x xdim bc tx xgl in
  let by_ := Spec.blocks_y ydim bc bx ty ygl in
  DivUp_fits xdim tx -> DivUp_fits bc bx -> DivUp_fits ydim ty ->
  DivUp_fits bc (bx * by_) -> DivUp_fits zdim tz ->
  exists cfg,
    snd (Occupancy.GetGpu3DLaunchConfig GOOGLE_CUDA xdim ydim zdim d drv func
           smem limit) = Ret cfg
    /\ (dim_x (Gpu2DLaunchConfig.block_count cfg) - 1)
       * dim_x (Gpu2DLaunchConfig.thread_per_block cfg) < xdim
    /\ (dim_y (Gpu2DLaunchConfig.block_count cfg) - 1)
       * dim_y (Gpu2DLaunchConfig.thread_per_block cfg) < ydim
    /\ (dim_z (Gpu2DLaunchConfig.block_count cfg) - 1)
       * dim_z (Gpu2DLaunchConfig.thread_per_block cfg) < zdim
    /\ dim_x (Gpu2DLaunchConfig.block_count cfg) <= bc.
Proof.
  intros Hx Hy Hz Hocc Hbc Htpb Hint Htl Hgl Hxtl Hytl Hztl Hxgl Hygl Hzgl
    tx ty tz bx by_ Fx Fb Fy Fbb Fz.
  pose proof (threads_x_bounds xdim ydim zdim tpb xtl ytl ztl
                ltac:(lia) ltac:(lia) ltac:(lia) Htpb Hxtl Hytl Hztl)
    as (Bx & _).
  pose proof (threads_y_bounds xdim ydim zdim tpb xtl ytl ztl
                ltac:(lia) ltac:(lia) ltac:(lia) Htpb Hxtl Hytl Hztl)
    as (By & _).
  pose proof (threads_z_bounds xdim ydim zdim tpb xtl ytl ztl
                ltac:(lia) ltac:(lia) ltac:(lia) Htpb Hxtl Hytl Hztl)
    as (Bz & _).
  fold tx in Bx, By, Bz. fold ty in By, Bz. fold tz in Bz.
  pose proof (blocks_x_bounds xdim ydim zdim bc tx ty tz xgl ygl zgl
                ltac:(lia) ltac:(lia) ltac:(lia) ltac:(lia) ltac:(lia)
                ltac:(lia) Hbc Hxgl Hygl Hzgl) as (Cx & _).
  pose proof (blocks_y_bounds xdim ydim zdim bc tx ty tz xgl ygl zgl
                ltac:(lia) ltac:(lia) ltac:(lia) ltac:(lia) ltac:(lia)
                ltac:(lia) Hbc Hxgl Hygl Hzgl) as (Cy & _).
  pose proof (blocks_z_bounds xdim ydim zdim bc tx ty tz xgl ygl zgl
                ltac:(lia) ltac:(lia) ltac:(lia) ltac:(lia) ltac:(lia)
                ltac:(lia) Hbc Hxgl Hygl Hzgl) as (Cz & _).
  fold bx in Cx, Cy, Cz. fold by_ in Cy, Cz.
  eexists. split.
  - apply succeeds_returns.
    apply (GetGpu3DLaunchConfig_cuda_succeeds xdim ydim zdim d drv func
             smem limit bc tpb xtl ytl ztl xgl ygl zgl);
      (assumption || lia).
  - cbn [Gpu2DLaunchConfig.thread_per_block Gpu2DLaunchConfig.block_count
         dim_x dim_y dim_z].
    pose proof (ceil_div_mul_le xdim tx ltac:(lia)).
    pose proof (ceil_div_mul_le ydim ty ltac:(lia)).
    pose proof (ceil_div_mul_le zdim tz ltac:(lia)).
    assert (bx <= ceil_div xdim tx) by (unfold bx, Spec.blocks_x, min3; lia).
    assert (by_ <= ceil_div ydim ty) by (unfold by_, Spec.blocks_y, min3; lia).
    assert (Spec.blocks_z zdim bc bx by_ tz zgl <= ceil_div zdim tz)
      by (unfold Spec.blocks_z, min3; lia).
    fold tx ty tz bx by_.
    set (bz := Spec.blocks_z zdim bc bx by_ tz zgl) in *.
    clearbody bz. clearbody by_. clearbody bx. clearbody tz. clearbody ty.
    clearbody tx.
    repeat split; nia.
Qed.

Lemma GetGpu3DLaunchConfig_no_idle_block_witness :
  exists cfg,
    snd (Occupancy.GetGpu3DLaunchConfig GOOGLE_CUDA 300 200 100 example_device
           example_driver tt 0 0) = Ret cfg
    /\ (dim_y (Gpu2DLaunchConfig.block_count cfg) - 1)
       * dim_y (Gpu2DLaunchConfig.thread_per_block cfg) < 200.
Proof.
  destruct (GetGpu3DLaunchConfig_no_idle_block 300 200 100
              example_device example_driver tt 0 0 13 1024 1024 1024 64
              2147483647 2147483647 2147483647)
    as (cfg & H & _ & Hy & _);
    try reflexivity; try (unfold Int.max_int; lia);
    try (unfold DivUp_fits, Int.max_int; vm_compute; discriminate).
  exists cfg. split; [exact H | exact Hy].
Defined.

(** X16. The x axis is served first: when [thread_per_block] does not
    exceed the x extent or the x thread limit, the whole block lies along
    x and the configuration has [thread_per_block = (thread_per_block, 1,
    1)], whatever the y and z extents are (CUDA build, preconditions of the
    3D functions, additions that feed a divisor in the range of [int]). *)
Theorem GetGpu3DLaunchConfig_x_axis_first {F}
    (xdim ydim zdim : Z) (d : GpuDevice) (drv : Driver F) (func : F)
    (smem limit bc tpb xtl ytl ztl xgl ygl zgl : Z) :
  0 < xdim -> 0 < ydim -> 0 < zdim ->
  PotentialBlockSize drv func smem limit = (Success, (bc, tpb)) ->
  1 <= bc -> 1 <= tpb -> tpb <= xdim -> tpb <= xtl ->
  maxThreadsDim (Properties drv) = (xtl, ytl, ztl) ->
  maxGridSize (Properties drv) = (xgl, ygl, zgl) ->
  1 <= ytl -> 1 <= ztl -> 1 <= xgl -> 1 <= ygl -> 1 <= zgl ->
  DivUp_fits xdim tpb -> DivUp_fits bc (Spec.blocks_x xdim bc tpb xgl) ->
  ydim <= Int.max_int ->
  exists cfg,
    snd (Occupancy.GetGpu3DLaunchConfig GOOGLE_CUDA xdim ydim zdim d drv func
           smem limit) = Ret cfg
    /\ Gpu2DLaunchConfig.thread_per_block cfg = Dim3 tpb 1 1.
Proof.
  intros Hx Hy Hz Hocc Hbc Htpb Htx Htl' Htl Hgl Hytl Hztl Hxgl Hygl Hzgl
    Fx Fb Fy.
  assert (Etx : Spec.threads_x xdim tpb xtl = tpb)
    by (unfold Spec.threads_x, min3; lia).
  assert (Ety : Spec.threads_y ydim tpb tpb ytl = 1).
  { unfold Spec.threads_y, min3. rewrite Z.div_same by lia. lia. }
  assert (Etz : Spec.threads_z zdim tpb tpb 1 ztl = 1).
  { unfold Spec.threads_z, min3. rewrite Z.mul_1_r, Z.div_same by lia. lia. }
  destruct (GetGpu3DLaunchConfig_cuda_safe xdim ydim zdim d drv func
              smem limit bc tpb xtl ytl ztl xgl ygl zgl)
    as [_ (cfg & Hcfg & Hp)];
    try (assumption || lia);
    try (rewrite ?Etx, ?Ety; unfold DivUp_fits, Int.max_int in *; lia).
  exists cfg. split; [exact Hcfg|].
  rewrite Hp, Etx, Ety, Etz. reflexivity.
Qed.

Lemma GetGpu3DLaunchConfig_x_axis_first_witness :
  exists cfg,
    snd (Occupancy.GetGpu3DLaunchConfig GOOGLE_CUDA 4096 7 9 example_device
           example_driver tt 0 0) = Ret cfg
    /\ Gpu2DLaunchConfig.thread_per_block cfg = Dim3 1024 1 1.
Proof.
  apply (GetGpu3DLaunchConfig_x_axis_first 4096 7 9 example_device
           example_driver tt 0 0 13 1024 1024 1024 64
           2147483647 2147483647 2147483647);
    try reflexivity; try (unfold Int.max_int; lia);
    unfold DivUp_fits, Int.max_int; vm_compute; discriminate.
Defined.

(** X17. The occupancy-aware [GetGpu2DLaunchConfig] produces a
    configuration of depth one: under the preconditions of the 3D formula
    for the x and y axes (CUDA build), [virtual_thread_count = (xdim, ydim,
    1)], the z thread count and the z block count are 1, and the x and y
    components are those of the greedy formulas. *)
Theorem occupancy_2D_has_depth_one {F}
    (xdim ydim : Z) (d : GpuDevice) (drv : Driver F) (func : F)
    (smem limit bc tpb xtl ytl ztl xgl ygl zgl : Z) :
  0 < xdim -> 0 < ydim ->
  PotentialBlockSize drv func smem limit = (Success, (bc, tpb)) ->
  1 <= bc -> 1 <= tpb -> tpb <= Int.max_int ->
  maxThreadsDim (Properties drv) = (xtl, ytl, ztl) ->
  maxGridSize (Properties drv) = (xgl, ygl, zgl) ->
  1 <= xtl -> 1 <= ytl -> 1 <= ztl -> 1 <= xgl -> 1 <= ygl -> 1 <= zgl ->
  let tx := Spec.threads_x xdim tpb xtl in
  let ty := Spec.threads_y ydim tpb tx ytl in
  let bx := Spec.blocks_x xdim bc tx xgl in
  let by_ := Spec.blocks_y ydim bc bx ty ygl in
  DivUp_fits xdim tx -> DivUp_fits bc bx -> DivUp_fits ydim ty ->
  DivUp_fits bc (bx * by_) ->
  snd (Occupancy.GetGpu2DLaunchConfig GOOGLE_CUDA xdim ydim d drv func smem
         limit)
  = Ret (Gpu2DLaunchConfig.make (Dim3 xdim ydim 1) (Dim3 tx ty 1)
           (Dim3 bx by_ 1)).
Proof.
  intros Hx Hy Hocc Hbc Htpb Hint Htl Hgl Hxtl Hytl Hztl Hxgl Hygl Hzgl
    tx ty bx by_ Fx Fb Fy Fbb.
  pose proof (threads_x_bounds xdim ydim 1 tpb xtl ytl ztl
                ltac:(lia) ltac:(lia) ltac:(lia) Htpb Hxtl Hytl Hztl)
    as (Bx & _).
  pose proof (threads_y_bounds xdim ydim 1 tpb xtl ytl ztl
                ltac:(lia) ltac:(lia) ltac:(lia) Htpb Hxtl Hytl Hztl)
    as (By & _).
  pose proof (threads_z_bounds xdim ydim 1 tpb xtl ytl ztl
                ltac:(lia) ltac:(lia) ltac:(lia) Htpb Hxtl Hytl Hztl)
    as (Bz & _).
  fold tx in Bx, By, Bz. fold ty in By, Bz.
  assert (Etz : Spec.threads_z 1 tpb tx ty ztl = 1) by lia.
  pose proof (blocks_x_bounds xdim ydim 1 bc tx ty 1 xgl ygl zgl
                ltac:(lia) ltac:(lia) ltac:(lia) ltac:(lia) ltac:(lia)
                ltac:(lia) Hbc Hxgl Hygl Hzgl) as (Cx & _).
  pose proof (blocks_y_bounds xdim ydim 1 bc tx ty 1 xgl ygl zgl
                ltac:(lia) ltac:(lia) ltac:(lia) ltac:(lia) ltac:(lia)
                ltac:(lia) Hbc Hxgl Hygl Hzgl) as (Cy & _).
  fold bx in Cx, Cy. fold by_ in Cy.
  assert (Ebz : Spec.blocks_z 1 bc bx by_ 1 zgl = 1).
  { pose proof (ceil_div_pos bc (bx * by_) Hbc ltac:(nia)).
    unfold Spec.blocks_z, min3. rewrite (ceil_div_small 1 1) by lia. lia. }
  apply succeeds_returns. unfold Occupancy.GetGpu2DLaunchConfig.
  eapply succeeds_weaken.
  - apply (GetGpu3DLaunchConfig_cuda_succeeds xdim ydim 1 d drv func
             smem limit bc tpb xtl ytl ztl xgl ygl zgl);
      try (assumption || lia).
    fold tx ty. rewrite Etz. unfold DivUp_fits, Int.max_int. lia.
  - intros c ->. fold tx ty bx by_. rewrite Etz, Ebz. reflexivity.
Qed.

Lemma occupancy_2D_has_depth_one_witness :
  snd (Occupancy.GetGpu2DLaunchConfig GOOGLE_CUDA 300 200 example_device
         example_driver tt 0 0)
  = Ret (Gpu2DLaunchConfig.make (Dim3 300 200 1) (Dim3 300 3 1)
           (Dim3 1 13 1)).
Proof.
  apply (occupancy_2D_has_depth_one 300 200 example_device example_driver
           tt 0 0 13 1024 1024 1024 64 2147483647 2147483647 2147483647);
    try reflexivity; try (unfold Int.max_int; lia);
    unfold DivUp_fits, Int.max_int; vm_compute; discriminate.
Defined.

(** ** [GetGpu3DLaunchConfig] on the ROCm build *)

(** What the ROCm build puts in [block_count] and [thread_per_block] in
    place of the occupancy query. *)
Lemma occupancy_3d_rocm_succeeds {F} (d : GpuDevice) (drv : Driver F)
    (func : F) (smem limit : Z) :
  1 <= NumMultiProcessors d -> 1 <= ThreadsPerMultiProcessor d ->
  1 <= ThreadsPerBlock d ->
  NumMultiProcessors d * ThreadsPerMultiProcessor d <= Int.max_int ->
  DivUp_fits (NumMultiProcessors d * ThreadsPerMultiProcessor d)
             (Z.min 1024 (ThreadsPerBlock d)) ->
  succeeds (Occupancy.occupancy_3d TENSORFLOW_USE_ROCM d drv func smem limit)
    (fun r => r = (Z.min (ceil_div (NumMultiProcessors d
                                    * ThreadsPerMultiProcessor d)
                            (Z.min 1024 (ThreadsPerBlock d)))
                         (NumMultiProcessors d),
                   Z.min 1024 (ThreadsPerBlock d))).
Proof.
  intros Hsm Hmt Hmb Hprod Hfit. unfold Occupancy.occupancy_3d.
  step_query. step_query. step_query.
  rewrite mul_in_range
    by (unfold Int.in_range, Int.min_int, Int.max_int in *; nia).
  step ltac:(apply succeeds_DivUp; (assumption || nia)). intros q ->.
  step_query. now apply succeeds_ret.
Qed.

Section AfterOccupancy.
Context {F : Type}.
Variables (b : backend) (xdim ydim zdim : Z) (d : GpuDevice) (drv : Driver F)
  (func : F) (smem limit : Z).
Variables bc tpb xtl ytl ztl xgl ygl zgl : Z.
Hypothesis xdim_pos : 1 <= xdim.
Hypothesis ydim_pos : 1 <= ydim.
Hypothesis zdim_pos : 1 <= zdim.
Hypothesis occupancy :
  succeeds (Occupancy.occupancy_3d b d drv func smem limit)
           (fun r => r = (bc, tpb)).
Hypothesis bc_pos : 1 <= bc.
Hypothesis tpb_pos : 1 <= tpb.
Hypothesis tpb_int : tpb <= Int.max_int.
Hypothesis thread_limits : maxThreadsDim (Properties drv) = (xtl, ytl, ztl).
Hypothesis grid_limits : maxGridSize (Properties drv) = (xgl, ygl, zgl).
Hypothesis xtl_pos : 1 <= xtl.
Hypothesis ytl_pos : 1 <= ytl.
Hypothesis ztl_pos : 1 <= ztl.
Hypothesis xgl_pos : 1 <= xgl.
Hypothesis ygl_pos : 1 <= ygl.
Hypothesis zgl_pos : 1 <= zgl.

Local Abbreviation tx := (Spec.threads_x xdim tpb xtl).
Local Abbreviation ty := (Spec.threads_y ydim tpb tx ytl).
Local Abbreviation tz := (Spec.threads_z zdim tpb tx ty ztl).
Local Abbreviation bx := (Spec.blocks_x xdim bc tx xgl).
Local Abbreviation by_ := (Spec.blocks_y ydim bc bx ty ygl).
Local Abbreviation bz := (Spec.blocks_z zdim bc bx by_ tz zgl).

(** Whatever set [block_count] and [thread_per_block], the distribution
    that follows is the same. *)
Lemma GetGpu3DLaunchConfig_after_occupancy :
  DivUp_fits xdim tx -> DivUp_fits bc bx -> DivUp_fits ydim ty ->
  DivUp_fits bc (bx * by_) -> DivUp_fits zdim tz ->
  succeeds (Occupancy.GetGpu3DLaunchConfig b xdim ydim zdim d drv func smem
              limit)
    (fun c => c = Gpu2DLaunchConfig.make (Dim3 xdim ydim zdim)
                    (Dim3 tx ty tz) (Dim3 bx by_ bz)).
Proof using All.
  intros Fx Fb Fy Fbb Fz.
  pose proof (threads_x_bounds xdim ydim zdim tpb xtl ytl ztl
                xdim_pos ydim_pos zdim_pos tpb_pos xtl_pos ytl_pos ztl_pos)
    as (Bx & Bxt & _).
  pose proof (threads_y_bounds xdim ydim zdim tpb xtl ytl ztl
                xdim_pos ydim_pos zdim_pos tpb_pos xtl_pos ytl_pos ztl_pos)
    as (By & _ & Bxy).
  pose proof (threads_z_bounds xdim ydim zdim tpb xtl ytl ztl
                xdim_pos ydim_pos zdim_pos tpb_pos xtl_pos ytl_pos ztl_pos)
    as (Bz & _ & Bxyz).
  pose proof (blocks_x_bounds xdim ydim zdim bc tx ty tz xgl ygl zgl
                xdim_pos ydim_pos zdim_pos ltac:(lia) ltac:(lia) ltac:(lia)
                bc_pos xgl_pos ygl_pos zgl_pos) as (Cx & _).
  pose proof (blocks_y_bounds xdim ydim zdim bc tx ty tz xgl ygl zgl
                xdim_pos ydim_pos zdim_pos ltac:(lia) ltac:(lia) ltac:(lia)
                bc_pos xgl_pos ygl_pos zgl_pos) as (Cy & _ & Cxy).
  pose proof (blocks_z_bounds xdim ydim zdim bc tx ty tz xgl ygl zgl
                xdim_pos ydim_pos zdim_pos ltac:(lia) ltac:(lia) ltac:(lia)
                bc_pos xgl_pos ygl_pos zgl_pos) as (Cz & _).
  unfold Occupancy.GetGpu3DLaunchConfig. not_degenerate.
  step ltac:(apply succeeds_cudaGetDeviceProperties).
  intros p ->. rewrite thread_limits, grid_limits.
  step ltac:(exact occupancy). intros r ->.
  step ltac:(apply threads_per_axis_succeeds; assumption).
  intros r ->.
  step ltac:(apply blocks_per_axis_succeeds; (assumption || lia)).
  intros r ->.
  apply succeeds_ret.
  assert (Hbz' : bz <= bc).
  { pose proof (ceil_div_le bc (bx * by_) bc_pos ltac:(nia)).
    unfold Spec.blocks_z, min3. lia. }
  assert (Hby' : by_ <= bc).
  { pose proof (ceil_div_le bc bx bc_pos ltac:(lia)).
    unfold Spec.blocks_y, min3. lia. }
  unfold DivUp_fits in *.
  rewrite !mk_dim3_small by nia. reflexivity.
Qed.

End AfterOccupancy.

(** X18. On the ROCm build [GetGpu3DLaunchConfig] distributes the pair
    that it computes from the device, [thread_per_block = min(1024,
    maxHipThreadsPerBlock)] and [block_count = min(ceil_div(multiprocessors
    * threads per multiprocessor, thread_per_block), multiprocessors)], by
    the same greedy formulas as the CUDA build distributes the occupancy
    answer (positive extents, device numbers and limits [>= 1], no [int]
    overflow in the product and in the [DivUp] additions). *)
Theorem GetGpu3DLaunchConfig_rocm_distribution {F}
    (xdim ydim zdim : Z) (d : GpuDevice) (drv : Driver F) (func : F)
    (smem limit xtl ytl ztl xgl ygl zgl : Z) :
  0 < xdim -> 0 < ydim -> 0 < zdim ->
  1 <= NumMultiProcessors d -> 1 <= ThreadsPerMultiProcessor d ->
  1 <= ThreadsPerBlock d ->
  NumMultiProcessors d * ThreadsPerMultiProcessor d <= Int.max_int ->
  maxThreadsDim (Properties drv) = (xtl, ytl, ztl) ->
  maxGridSize (Properties drv) = (xgl, ygl, zgl) ->
  1 <= xtl -> 1 <= ytl -> 1 <= ztl -> 1 <= xgl -> 1 <= ygl -> 1 <= zgl ->
  let tpb := Z.min 1024 (ThreadsPerBlock d) in
  let bc :=
    Z.min (ceil_div (NumMultiProcessors d * ThreadsPerMultiProcessor d) tpb)
          (NumMultiProcessors d) in
  let tx := Spec.threads_x xdim tpb xtl in
  let ty := Spec.threads_y ydim tpb tx ytl in
  let tz := Spec.threads_z zdim tpb tx ty ztl in
  let bx := Spec.blocks_x xdim bc tx xgl in
  let by_ := Spec.blocks_y ydim bc bx ty ygl in
  let bz := Spec.blocks_z zdim bc bx by_ tz zgl in
  DivUp_fits (NumMultiProcessors d * ThreadsPerMultiProcessor d) tpb ->
  DivUp_fits xdim tx -> DivUp_fits bc bx -> DivUp_fits ydim ty ->
  DivUp_fits bc (bx * by_) -> DivUp_fits zdim tz ->
  snd (Occupancy.GetGpu3DLaunchConfig TENSORFLOW_USE_ROCM xdim ydim zdim d
         drv func smem limit)
  = Ret (Gpu2DLaunchConfig.make (Dim3 xdim ydim zdim) (Dim3 tx ty tz)
           (Dim3 bx by_ bz)).
Proof.
  intros Hx Hy Hz Hsm Hmt Hmb Hprod Htl Hgl Hxtl Hytl Hztl Hxgl Hygl Hzgl
    tpb bc tx ty tz bx by_ bz Fp Fx Fb Fy Fbb Fz.
  assert (Hbc : 1 <= bc).
  { pose proof (ceil_div_pos
                  (NumMultiProcessors d * ThreadsPerMultiProcessor d) tpb
                  ltac:(nia) ltac:(unfold tpb; lia)).
    unfold bc. lia. }
  apply succeeds_returns.
  apply (GetGpu3DLaunchConfig_after_occupancy TENSORFLOW_USE_ROCM
           xdim ydim zdim d drv func smem limit bc tpb
           xtl ytl ztl xgl ygl zgl);
    try (assumption || lia);
    try (unfold tpb, Int.max_int; lia).
  now apply occupancy_3d_rocm_succeeds.
Qed.

Lemma GetGpu3DLaunchConfig_rocm_distribution_witness :
  snd (Occupancy.GetGpu3DLaunchConfig TENSORFLOW_USE_ROCM 4096 4096 100
         (Build_GpuDevice 64 2560 1024) example_driver tt 0 0)
  = Ret (Gpu2DLaunchConfig.make (Dim3 4096 4096 100) (Dim3 1024 1 1)
           (Dim3 4 16 1)).
Proof.
  apply (GetGpu3DLaunchConfig_rocm_distribution 4096 4096 100
           (Build_GpuDevice 64 2560 1024) example_driver tt 0 0
           1024 1024 64 2147483647 2147483647 2147483647);
    try reflexivity; try (unfold Int.max_int; cbn; lia);
    unfold DivUp_fits, Int.max_int; vm_compute; discriminate.
Defined.

(** ** The 2D heuristic, beyond its formula *)

(** X19. Under the preconditions of the 2D formula (positive extents, no
    [int] overflow) the heuristic [GetGpu2DLaunchConfig] returns a block of
    more than 128 and at most 256 threads, [block_cols * block_rows], of
    depth 1, and a grid of depth 1 whose [grid_x * grid_y] blocks stay
    within the budget [max_blocks = max(multiprocessors * threads per
    multiprocessor / 256, 1)], with at least one block on each axis. *)
Theorem heuristic_2d_within_budget (xdim ydim : Z) (d : GpuDevice) :
  0 < xdim -> 0 < ydim ->
  DivUp_fits xdim (Z.min xdim 256) ->
  Int.in_range (NumMultiProcessors d * ThreadsPerMultiProcessor d) ->
  exists cfg,
    snd (Heuristic.GetGpu2DLaunchConfig xdim ydim d) = Ret cfg
    /\ 128 < dim_x (Gpu2DLaunchConfig.thread_per_block cfg)
             * dim_y (Gpu2DLaunchConfig.thread_per_block cfg) <= 256
    /\ dim_z (Gpu2DLaunchConfig.thread_per_block cfg) = 1
    /\ 1 <= dim_x (Gpu2DLaunchConfig.block_count cfg)
    /\ 1 <= dim_y (Gpu2DLaunchConfig.block_count cfg)
    /\ dim_x (Gpu2DLaunchConfig.block_count cfg)
       * dim_y (Gpu2DLaunchConfig.block_count cfg)
       <= Z.max (NumMultiProcessors d * ThreadsPerMultiProcessor d / 256) 1
    /\ dim_z (Gpu2DLaunchConfig.block_count cfg) = 1.
Proof.
  intros Hx Hy Hfit Hprod.
  destruct (GetGpu2DLaunchConfig_succeeds xdim ydim d
              ltac:(lia) ltac:(lia) Hfit) as [_ (cfg & Hcfg & Hp)].
  destruct (Hp Hprod) as [Ht Hb].
  exists cfg. split; [exact Hcfg|]. rewrite Ht, Hb. cbn [dim_x dim_y dim_z].
  pose proof (block_cols_bounds xdim ltac:(lia)) as Hc.
  pose proof (grid_x_bounds xdim d ltac:(lia)) as Hgx.
  pose proof (grid_y_bounds xdim ydim d ltac:(lia) ltac:(lia)) as Hgy.
  fold (Spec.max_blocks d).
  assert (Hrows : Spec.block_rows xdim = 256 / Spec.block_cols xdim).
  { unfold Spec.block_rows.
    assert (1 <= 256 / Spec.block_cols xdim)
      by (apply Z.div_le_lower_bound; lia).
    lia. }
  pose proof (Z.div_mod 256 (Spec.block_cols xdim) ltac:(lia)) as Hdm.
  pose proof (Z.mod_pos_bound 256 (Spec.block_cols xdim) ltac:(lia)) as Hm.
  assert (Hgxy : Spec.grid_x xdim d * Spec.grid_y xdim ydim d
                 <= Spec.max_blocks d).
  { pose proof (Z.mul_div_le (Spec.max_blocks d) (Spec.grid_x xdim d)
                  ltac:(lia)).
    assert (Spec.grid_y xdim ydim d
            <= Spec.max_blocks d / Spec.grid_x xdim d)
      by (unfold Spec.grid_y; lia).
    nia. }
  assert (Hq : 1 <= 256 / Spec.block_cols xdim)
    by (apply Z.div_le_lower_bound; lia).
  assert (Hfull : 128 < Spec.block_cols xdim * (256 / Spec.block_cols xdim)).
  { destruct (Z_le_gt_dec (Spec.block_cols xdim) 128); [lia | nia]. }
  rewrite Hrows. repeat split; lia.
Qed.

Lemma heuristic_2d_within_budget_witness :
  exists cfg,
    snd (Heuristic.GetGpu2DLaunchConfig 1000 300 example_device) = Ret cfg
    /\ dim_x (Gpu2DLaunchConfig.block_count cfg)
       * dim_y (Gpu2DLaunchConfig.block_count cfg)
       <= Z.max (NumMultiProcessors example_device
                 * ThreadsPerMultiProcessor example_device / 256) 1.
Proof.
  destruct (heuristic_2d_within_budget 1000 300 example_device)
    as (cfg & H & _ & _ & _ & _ & Hb & _);
    try (unfold DivUp_fits, Int.in_range, Int.min_int, Int.max_int; cbn; lia).
  exists cfg. split; [exact H | exact Hb].
Defined.

(** X20. Coverage of the 2D heuristic (same preconditions): the x axis is
    covered in one pass, [grid_x * block_cols >= xdim], whenever the
    blocks it needs fit the budget [max_blocks]; the y axis is never
    over-covered, [grid_y * block_rows <= max(ydim, block_rows)], because
    [ydim / block_rows] rounds down (kernels loop over the rest). *)
Theorem heuristic_2d_coverage (xdim ydim : Z) (d : GpuDevice) :
  0 < xdim -> 0 < ydim ->
  DivUp_fits xdim (Z.min xdim 256) ->
  Int.in_range (NumMultiProcessors d * ThreadsPerMultiProcessor d) ->
  exists cfg,
    snd (Heuristic.GetGpu2DLaunchConfig xdim ydim d) = Ret cfg
    /\ (ceil_div xdim (Z.min xdim 256)
        <= Z.max (NumMultiProcessors d * ThreadsPerMultiProcessor d / 256) 1 ->
        xdim <= dim_x (Gpu2DLaunchConfig.block_count cfg)
                * dim_x (Gpu2DLaunchConfig.thread_per_block cfg))
    /\ dim_y (Gpu2DLaunchConfig.block_count cfg)
       * dim_y (Gpu2DLaunchConfig.thread_per_block cfg)
       <= Z.max ydim (dim_y (Gpu2DLaunchConfig.thread_per_block cfg)).
Proof.
  intros Hx Hy Hfit Hprod.
  destruct (GetGpu2DLaunchConfig_succeeds xdim ydim d
              ltac:(lia) ltac:(lia) Hfit) as [_ (cfg & Hcfg & Hp)].
  destruct (Hp Hprod) as [Ht Hb].
  exists cfg. split; [exact Hcfg|]. rewrite Ht, Hb. cbn [dim_x dim_y dim_z].
  pose proof (block_cols_bounds xdim ltac:(lia)) as Hc.
  pose proof (block_rows_bounds xdim ltac:(lia)) as Hr.
  split.
  - intros Hle. unfold Spec.grid_x, Spec.max_blocks.
    fold (Spec.block_cols xdim) in Hle. rewrite Z.min_l by exact Hle.
    apply ceil_div_covers. lia.
  - pose proof (Z.mul_div_le ydim (Spec.block_rows xdim) ltac:(lia)).
    assert (Spec.grid_y xdim ydim d
            <= Z.max (ydim / Spec.block_rows xdim) 1)
      by (unfold Spec.grid_y; lia).
    nia.
Qed.

Lemma heuristic_2d_coverage_witness :
  exists cfg,
    snd (Heuristic.GetGpu2DLaunchConfig 1000 300 example_device) = Ret cfg
    /\ dim_y (Gpu2DLaunchConfig.block_count cfg)
       * dim_y (Gpu2DLaunchConfig.thread_per_block cfg)
       <= Z.max 300 (dim_y (Gpu2DLaunchConfig.thread_per_block cfg)).
Proof.
  destruct (heuristic_2d_coverage 1000 300 example_device)
    as (cfg & H & _ & Hyc);
    try (unfold DivUp_fits, Int.in_range, Int.min_int, Int.max_int; cbn; lia).
  exists cfg. split; [exact H | exact Hyc].
Defined.
